(** * The Resilience Pilot: a model of [app/main.py]

    The service keeps three Prometheus metrics, a start time and a
    process-wide chaos toggle.  Every request goes through the
    [instrument_requests] middleware, which delegates to one of four
    handlers.  Handlers are state transformers over the module-level
    globals; a handler either returns or raises. *)

From Stdlib Require Import ZArith QArith Qround Qabs Qreduction Lia Lqa String Ascii List.
From Stdlib Require Import DecimalString DecimalZ DecimalPos DecimalN.
From stdpp Require Import gmap strings list fin_maps.

Open Scope string_scope.

(** ** Python floats

    Clock readings ([time.time()]), their differences and the draws of
    [random.random()] are finite binary64 values; they are modelled by
    the rationals they denote.  The [probability] query parameter is
    parsed from text and may be any float, so it also ranges over the
    two infinities and NaN.  Arithmetic that rounds in binary64 rounds
    here too, through [binary64_round]; signed zeros are not told apart
    and overflow to infinity is left out, no operation below can reach
    it from finite arguments. *)

Inductive pyfloat : Type :=
| Finite (q : Q)
| PosInf
| NegInf
| NaN.

Definition Qltb (x y : Q) : bool := negb (Qle_bool y x).

(** [a < b] on floats: false as soon as one side is NaN. *)
Definition float_lt (a b : pyfloat) : bool :=
  match a, b with
  | NaN, _ | _, NaN => false
  | _, NegInf => false
  | NegInf, _ => true
  | PosInf, _ => false
  | Finite _, PosInf => true
  | Finite x, Finite y => Qltb x y
  end.

(** [max(a, b)] keeps its first argument unless the second is greater;
    [min(a, b)] keeps its first argument unless the second is smaller. *)
Definition py_max (a b : pyfloat) : pyfloat := if float_lt a b then b else a.
Definition py_min (a b : pyfloat) : pyfloat := if float_lt b a then b else a.

Definition is_finite (x : pyfloat) : bool :=
  match x with
  | Finite _ => true
  | _ => false
  end.

(** *** Rounding to binary64

    [pow2 e] is 2^e; [binary_exponent a] is the integer [e] with
    2^e <= a < 2^(e+1), for [a > 0]; [binary64_round q] is the binary64
    value nearest to [q], ties to the even significand: 53 significant
    bits, and multiples of 2^-1074 in the subnormal range. *)
Definition pow2 (e : Z) : Q :=
  if (0 <=? e)%Z then inject_Z (2 ^ e) else (1 # Z.to_pos (2 ^ (- e)))%Q.

Definition round_half_even (s : Q) : Z :=
  let n := Qfloor s in
  match (s - inject_Z n ?= 1 # 2)%Q with
  | Lt => n
  | Gt => (n + 1)%Z
  | Eq => if Z.even n then n else (n + 1)%Z
  end.

Definition binary_exponent (a : Q) : Z :=
  let e0 := (Z.log2 (Qnum a) - Z.log2 (Zpos (Qden a)))%Z in
  if Qle_bool (pow2 e0) a then e0 else (e0 - 1)%Z.

Definition binary64_round (q : Q) : Q :=
  let q := Qred q in
  match Qnum q with
  | Z0 => 0%Q
  | _ =>
      let a := Qabs q in
      let shift := Z.max (binary_exponent a - 52) (-1074) in
      let n := round_half_even (a / pow2 shift)%Q in
      let r := (inject_Z n * pow2 shift)%Q in
      if (Qnum q <? 0)%Z then (- r)%Q else r
  end.

(** [x * k] for a finite factor [k > 0]: the rounded product. *)
Definition float_scale (x : pyfloat) (k : Q) : pyfloat :=
  match x with
  | Finite q => Finite (binary64_round (q * k)%Q)
  | other => other
  end.

(** [int(x)]: truncation towards zero. *)
Definition py_int (x : Q) : Z := Z.quot (Qnum x) (Zpos (Qden x)).

(** C's [fmod(x, n)], which is exact: [x - n * trunc(x / n)]. *)
Definition c_fmod (x : Q) (n : Z) : Q :=
  (x - inject_Z n * inject_Z (py_int (x / inject_Z n)))%Q.

(** [x % n] and [x // n] on finite floats, for a nonzero integer [n]
    that converts to a float exactly, as the interpreter computes them:
    [%] takes the exact [fmod] and, when its sign differs from the
    divisor's, adds the divisor with one rounding; [//] divides the
    rounded [x - fmod] by [n], takes one off in that same case, and
    snaps the quotient to an integer. *)
Definition py_mod (x : Q) (n : Z) : Q :=
  let m := c_fmod x n in
  if Qeq_bool m 0 then 0%Q
  else if xorb (n <? 0)%Z (Qltb m 0) then binary64_round (m + inject_Z n)%Q
  else m.

Definition py_floordiv (x : Q) (n : Z) : Q :=
  let m := c_fmod x n in
  let div := binary64_round (binary64_round (x - m) / inject_Z n)%Q in
  let div :=
    if negb (Qeq_bool m 0) && xorb (n <? 0)%Z (Qltb m 0)
    then binary64_round (div - 1)%Q
    else div in
  if Qeq_bool div 0 then 0%Q
  else
    let fl := inject_Z (Qfloor div) in
    if Qltb (1 # 2) (binary64_round (div - fl)%Q) then binary64_round (fl + 1)%Q
    else fl.

(** [round(x, 2)]: nearest multiple of 1/100, ties to the even one. *)
Definition py_round2 (x : Q) : Q :=
  let n := Qfloor (x * 100)%Q in
  let up :=
    match (x * 100 - inject_Z n ?= 1 # 2)%Q with
    | Lt => false
    | Gt => true
    | Eq => Z.odd n
    end in
  ((if up then n + 1 else n)%Z # 100)%Q.

(** [str(n)] for an [int], as the f-strings render it. *)
Definition str_int (n : Z) : string := NilEmpty.string_of_int (Z.to_int n).

(** ** JSON payloads, responses and faults *)

#[local] Set Warnings "-register-all".
Inductive json : Type :=
| JStr (s : string)
| JNum (x : pyfloat)
| JBool (b : bool)
| JObj (fields : list (string * json))
| JFmt (before : string) (x : pyfloat) (after : string).
  (* an f-string with one float hole: before ++ repr x ++ after *)

(** Prometheus metric families.  A counter family maps a label triple
    to its count; a histogram family maps a label pair to the
    durations observed so far (newest first), from which the bucket
    counts are derived. *)
Abbreviation counter_family := (gmap (string * string * Z) N).
Abbreviation histogram_family := (gmap (string * string) (list Q)).

(** The bucket bounds are the floats that the decimal literals of the
    source denote. *)
Definition LATENCY_BUCKETS : list Q :=
  map binary64_round
    [5 # 1000; 1 # 100; 25 # 1000; 5 # 100; 1 # 10; 25 # 100; 5 # 10; 1; 25 # 10; 5]%Q.

(** Cumulative bucket count [le=bound] of one histogram child. *)
Definition bucket_count (bound : Q) (observed : list Q) : nat :=
  length (filter (fun d => Qle_bool d bound = true) observed).

Inductive Body : Type :=
| JSON (j : json)
| Exposition (counts : counter_family) (latencies : histogram_family) (uptime : Q).
  (* generate_latest(REGISTRY): the registry as it stands when scraped *)

Record Response := { status_code : Z; content : Body }.

(** Exceptions: [HTTPException], any other subclass of [Exception], and
    the exceptions that derive from [BaseException] only
    ([asyncio.CancelledError], [KeyboardInterrupt], [SystemExit]), which
    [except Exception] does not catch. *)
Inductive exn : Type :=
| HTTPException (status : Z) (detail : string)
| OtherException (name : string)
| BaseExceptionOnly (name : string).

Definition is_Exception (e : exn) : bool :=
  match e with
  | BaseExceptionOnly _ => false
  | _ => true
  end.

(** Whether [json.dumps(..., allow_nan=False)] accepts the value: it
    raises [ValueError] on NaN and on the infinities. *)
Fixpoint json_finite (j : json) : bool :=
  match j with
  | JNum x => is_finite x
  | JObj fields => forallb (fun kv => json_finite (snd kv)) fields
  | _ => true
  end.

Inductive outcome (A : Type) : Type :=
| Return (a : A)
| Raise (e : exn).
Arguments Return {A} a.
Arguments Raise {A} e.

(** ** Module-level state *)

Record ChaosState := { enabled : bool; probability : pyfloat }.

Record World := {
  START_TIME : Q;
  CHAOS_MODE : ChaosState;
  REQUEST_COUNT : counter_family;
  REQUEST_LATENCY : histogram_family;
  UPTIME_GAUGE : Q
}.

(** The state right after import, the process having started at [t0]. *)
Definition initial_world (t0 : Q) : World :=
  {| START_TIME := t0;
     CHAOS_MODE := {| enabled := false; probability := Finite 0 |};
     REQUEST_COUNT := ∅;
     REQUEST_LATENCY := ∅;
     UPTIME_GAUGE := 0 |}.

(** [REQUEST_COUNT.labels(method, endpoint, status).inc()] *)
Definition counter_inc (key : string * string * Z) (m : counter_family) : counter_family :=
  <[key := (default 0 (m !! key) + 1)%N]> m.

(** [REQUEST_LATENCY.labels(method, endpoint).observe(duration)] *)
Definition histogram_observe (key : string * string) (d : Q) (m : histogram_family)
  : histogram_family :=
  <[key := d :: default [] (m !! key)]> m.

Definition count_request (method endpoint : string) (status : Z) (w : World) : World :=
  {| START_TIME := START_TIME w;
     CHAOS_MODE := CHAOS_MODE w;
     REQUEST_COUNT := counter_inc (method, endpoint, status) (REQUEST_COUNT w);
     REQUEST_LATENCY := REQUEST_LATENCY w;
     UPTIME_GAUGE := UPTIME_GAUGE w |}.

Definition observe_latency (method endpoint : string) (d : Q) (w : World) : World :=
  {| START_TIME := START_TIME w;
     CHAOS_MODE := CHAOS_MODE w;
     REQUEST_COUNT := REQUEST_COUNT w;
     REQUEST_LATENCY := histogram_observe (method, endpoint) d (REQUEST_LATENCY w);
     UPTIME_GAUGE := UPTIME_GAUGE w |}.

Definition set_uptime (u : Q) (w : World) : World :=
  {| START_TIME := START_TIME w;
     CHAOS_MODE := CHAOS_MODE w;
     REQUEST_COUNT := REQUEST_COUNT w;
     REQUEST_LATENCY := REQUEST_LATENCY w;
     UPTIME_GAUGE := u |}.

Definition set_chaos (c : ChaosState) (w : World) : World :=
  {| START_TIME := START_TIME w;
     CHAOS_MODE := c;
     REQUEST_COUNT := REQUEST_COUNT w;
     REQUEST_LATENCY := REQUEST_LATENCY w;
     UPTIME_GAUGE := UPTIME_GAUGE w |}.

(** Sum of all children of the request counter, and number of latency
    observations over all children of the histogram. *)
Definition total_requests (w : World) : N :=
  map_fold (fun _ v acc => (v + acc)%N) 0%N (REQUEST_COUNT w).

Definition total_observations (w : World) : nat :=
  map_fold (fun _ (obs : list Q) acc => (length obs + acc)%nat) 0%nat (REQUEST_LATENCY w).

Definition request_count (w : World) (method endpoint : string) (status : Z) : N :=
  default 0%N (REQUEST_COUNT w !! (method, endpoint, status)).

(** ** Handlers as state transformers that return or raise *)

Definition M (A : Type) : Type := World -> World * outcome A.

Definition ret {A} (a : A) : M A := fun w => (w, Return a).
Definition raise {A} (e : exn) : M A := fun w => (w, Raise e).
Definition bind {A B} (m : M A) (k : A -> M B) : M B :=
  fun w =>
    match m w with
    | (w', Return a) => k a w'
    | (w', Raise e) => (w', Raise e)
    end.
Definition read {A} (f : World -> A) : M A := fun w => (w, Return (f w)).
Definition update (f : World -> World) : M unit := fun w => (f w, Return tt).

Declare Scope handler_scope.
Delimit Scope handler_scope with handler.
Notation "x <- c1 ;; c2" := (bind c1 (fun x => c2))
  (at level 100, c1 at next level, right associativity) : handler_scope.
Notation "c1 ;; c2" := (bind c1 (fun _ => c2))
  (at level 100, right associativity) : handler_scope.

Local Open Scope handler_scope.

(** What a route function hands back: a dict, which the framework
    serialises with status 200, or a response object of its own. *)
Inductive payload : Type :=
| Dict (j : json)
| Resp (r : Response).

(** [GET /] *)
Definition root : M payload :=
  ret (Dict (JObj
    [("application", JStr "The Resilience Pilot");
     ("version", JStr "1.0.0");
     ("endpoints", JObj [("health", JStr "/health");
                         ("metrics", JStr "/metrics");
                         ("chaos", JStr "/simulate-crash")])])).

(** The four integer fields computed at the top of [format_uptime]. *)
Definition uptime_days (seconds : Q) : Z := py_int (py_floordiv seconds 86400).
Definition uptime_hours (seconds : Q) : Z := py_int (py_floordiv (py_mod seconds 86400) 3600).
Definition uptime_minutes (seconds : Q) : Z := py_int (py_floordiv (py_mod seconds 3600) 60).
Definition uptime_secs (seconds : Q) : Z := py_int (py_mod seconds 60).

(** The [if]/[elif] chain of [format_uptime] on the computed fields. *)
Definition render_uptime (days hours minutes secs : Z) : string :=
  if (days >? 0)%Z then
    str_int days +:+ "d " +:+ str_int hours +:+ "h " +:+ str_int minutes +:+ "m "
      +:+ str_int secs +:+ "s"
  else if (hours >? 0)%Z then
    str_int hours +:+ "h " +:+ str_int minutes +:+ "m " +:+ str_int secs +:+ "s"
  else if (minutes >? 0)%Z then
    str_int minutes +:+ "m " +:+ str_int secs +:+ "s"
  else
    str_int secs +:+ "s".

Definition format_uptime (seconds : Q) : string :=
  let days := uptime_days seconds in
  let hours := uptime_hours seconds in
  let minutes := uptime_minutes seconds in
  let secs := uptime_secs seconds in
  render_uptime days hours minutes secs.

(** [format_uptime] on any float.  On an infinity or NaN, [seconds //
    86400] is NaN and [int] raises [ValueError] at the first field;
    [health_check] only passes it a difference of two clock readings,
    which is finite. *)
Definition format_uptime_float (seconds : pyfloat) : outcome string :=
  match seconds with
  | Finite q => Return (format_uptime q)
  | PosInf | NegInf | NaN => Raise (OtherException "ValueError")
  end.

(** The condition of the [if] in [health_check]:
    [CHAOS_MODE["enabled"] and random.random() < CHAOS_MODE["probability"]],
    [draw] being the value [random.random()] returns. *)
Definition chaos_triggers (c : ChaosState) (draw : Q) : bool :=
  enabled c && float_lt (Finite draw) (probability c).

Definition degraded_detail : string := "Service degraded (chaos mode active)".

(** [GET /health]; [now] is the reading of [time.time()]. *)
Definition health_check (now draw : Q) : M payload :=
  start <- read START_TIME ;;
  let uptime := (now - start)%Q in
  update (set_uptime uptime) ;;
  chaos <- read CHAOS_MODE ;;
  if chaos_triggers chaos draw then
    update (count_request "GET" "/health" 503) ;;
    raise (HTTPException 503 degraded_detail)
  else
    chaos_mode <- read (fun w => enabled (CHAOS_MODE w)) ;;
    ret (Resp {| status_code := 200;
                 content := JSON (JObj
                   [("status", JStr "healthy");
                    ("uptime", JNum (Finite (py_round2 uptime)));
                    ("uptime_formatted", JStr (format_uptime uptime));
                    ("chaos_mode", JBool chaos_mode)]) |}).

(** [GET /metrics] *)
Definition metrics (now : Q) : M payload :=
  start <- read START_TIME ;;
  update (set_uptime (now - start)%Q) ;;
  snapshot <- read (fun w => Exposition (REQUEST_COUNT w) (REQUEST_LATENCY w) (UPTIME_GAUGE w)) ;;
  ret (Resp {| status_code := 200; content := snapshot |}).

Definition chaos_message : string :=
  "ðŸ’¥ Chaos injected! This is an intentional crash for testing.".

Definition unknown_mode_detail (mode : string) : string :=
  "Unknown mode: " +:+ mode +:+ ". Use 'immediate', 'degraded', or 'reset'".

(** [POST /simulate-crash] *)
Definition simulate_crash (mode : string) (probability_arg : pyfloat) : M payload :=
  if String.eqb mode "immediate" then
    update (count_request "POST" "/simulate-crash" 500) ;;
    raise (HTTPException 500 chaos_message)
  else if String.eqb mode "degraded" then
    update (fun w => set_chaos {| enabled := true;
                                  probability := probability (CHAOS_MODE w) |} w) ;;
    update (fun w => set_chaos {| enabled := enabled (CHAOS_MODE w);
                                  probability := py_min (py_max probability_arg (Finite 0))
                                                        (Finite 1) |} w) ;;
    p <- read (fun w => probability (CHAOS_MODE w)) ;;
    ret (Dict (JObj
      [("status", JStr "chaos_enabled");
       ("mode", JStr "degraded");
       ("failure_probability", JNum p);
       ("message", JFmt "Health endpoint will fail " (float_scale p 100) "% of the time")]))
  else if String.eqb mode "reset" then
    update (fun w => set_chaos {| enabled := false;
                                  probability := probability (CHAOS_MODE w) |} w) ;;
    update (fun w => set_chaos {| enabled := enabled (CHAOS_MODE w);
                                  probability := Finite 0 |} w) ;;
    ret (Dict (JObj
      [("status", JStr "chaos_disabled");
       ("message", JStr "Service restored to healthy state")]))
  else
    raise (HTTPException 400 (unknown_mode_detail mode)).

(** ** The framework around the route functions

    [call_next] runs the matched route function below the framework's
    exception layer: a returned dict is rendered as a 200 JSON response,
    which raises [ValueError] when the dict holds NaN or an infinity; an
    [HTTPException] becomes a response with its status and the body
    [{"detail": ...}], and any other exception propagates. *)
Definition to_response (p : payload) : outcome Response :=
  match p with
  | Dict j =>
      if json_finite j then Return {| status_code := 200; content := JSON j |}
      else Raise (OtherException "ValueError")
  | Resp r => Return r
  end.

Definition fault_response (status : Z) (detail : string) : Response :=
  {| status_code := status; content := JSON (JObj [("detail", JStr detail)]) |}.

Definition call_next (handler : M payload) : M Response :=
  fun w =>
    match handler w with
    | (w', Return p) => (w', to_response p)
    | (w', Raise (HTTPException status detail)) => (w', Return (fault_response status detail))
    | (w', Raise e) => (w', Raise e)
    end.

(** ** Middleware

    [t_start] and [t_end] are the two readings of [time.time()].
    [status] is bound when [call_next] returns and in the
    [except Exception] clause; an exception that is not an [Exception]
    leaves it unbound, and then the [finally] block itself raises
    [UnboundLocalError] at [status=status], before anything is
    recorded.  Otherwise the [finally] block records and the response is
    returned or the exception raised again. *)
Definition instrument_requests (method endpoint : string) (t_start t_end : Q)
    (next : M Response) : M Response :=
  fun w =>
    let '(w1, result) := next w in
    let status :=
      match result with
      | Return response => Some (status_code response)
      | Raise e => if is_Exception e then Some 500%Z else None
      end in
    let duration := (t_end - t_start)%Q in
    match status with
    | Some status =>
        let w2 := count_request method endpoint status w1 in
        let w3 := observe_latency method endpoint duration w2 in
        (w3, result)
    | None => (w1, Raise (OtherException "UnboundLocalError"))
    end.

(** ** Requests to the four endpoints *)

Inductive Call : Type :=
| GetRoot
| GetHealth
| GetMetrics
| PostSimulateCrash (mode : option string) (probability_arg : option pyfloat).

(** What the environment supplies while one request is served: the
    clock readings of the middleware and of the handler, and the
    random draw. *)
Record Env := { t_start : Q; t_handler : Q; t_end : Q; draw : Q }.

Definition call_method (c : Call) : string :=
  match c with
  | PostSimulateCrash _ _ => "POST"
  | _ => "GET"
  end.

Definition call_path (c : Call) : string :=
  match c with
  | GetRoot => "/"
  | GetHealth => "/health"
  | GetMetrics => "/metrics"
  | PostSimulateCrash _ _ => "/simulate-crash"
  end.

(** Route function with its query parameters bound, defaults applied. *)
Definition route (c : Call) (e : Env) : M payload :=
  match c with
  | GetRoot => root
  | GetHealth => health_check (t_handler e) (draw e)
  | GetMetrics => metrics (t_handler e)
  | PostSimulateCrash mode p =>
      simulate_crash (default "immediate" mode) (default (Finite 1) p)
  end.

Definition serve (c : Call) (e : Env) : M Response :=
  instrument_requests (call_method c) (call_path c) (t_start e) (t_end e)
    (call_next (route c e)).

(** Serving a sequence of requests, collecting what each caller sees. *)
Fixpoint serve_all (reqs : list (Call * Env)) (w : World)
  : World * list (outcome Response) :=
  match reqs with
  | [] => (w, [])
  | (c, e) :: rest =>
      let '(w1, r) := serve c e w in
      let '(w2, rs) := serve_all rest w1 in
      (w2, r :: rs)
  end.

(** ** Vocabulary of the properties *)

(** *** Reading an uptime string back *)

(** Decimal numeral of a natural number. *)
Definition numeral (n : N) : string := NilEmpty.string_of_uint (N.to_uint n).

(** The four patterns of [format_uptime]. *)
Definition pattern_dhms (d h m s : N) : string :=
  numeral d +:+ "d " +:+ numeral h +:+ "h " +:+ numeral m +:+ "m " +:+ numeral s +:+ "s".
Definition pattern_hms (h m s : N) : string :=
  numeral h +:+ "h " +:+ numeral m +:+ "m " +:+ numeral s +:+ "s".
Definition pattern_ms (m s : N) : string :=
  numeral m +:+ "m " +:+ numeral s +:+ "s".
Definition pattern_s (s : N) : string :=
  numeral s +:+ "s".

Inductive uptime_pattern : Type := DHMS | HMS | MS | SecondsOnly.

Definition matches (pat : uptime_pattern) (str : string) : Prop :=
  match pat with
  | DHMS => exists d h m s, str = pattern_dhms d h m s
  | HMS => exists h m s, str = pattern_hms h m s
  | MS => exists m s, str = pattern_ms m s
  | SecondsOnly => exists s, str = pattern_s s
  end.

(** Number of components a pattern renders. *)
Definition arity (pat : uptime_pattern) : nat :=
  match pat with
  | DHMS => 4
  | HMS => 3
  | MS => 2
  | SecondsOnly => 1
  end.

Definition is_digit (c : ascii) : bool :=
  (48 <=? nat_of_ascii c)%nat && (nat_of_ascii c <=? 57)%nat.

(** Longest prefix of digits, and what follows it. *)
Fixpoint take_digits (s : string) : string * string :=
  match s with
  | EmptyString => (EmptyString, EmptyString)
  | String c rest =>
      if is_digit c then
        let '(digits, after) := take_digits rest in (String c digits, after)
      else (EmptyString, s)
  end.

Definition no_leading_digit (s : string) : Prop :=
  match s with
  | EmptyString => True
  | String c _ => is_digit c = false
  end.

(** Components [<digits><unit>] separated by single spaces, at most
    [fuel] of them. *)
Fixpoint parse_components (fuel : nat) (s : string) : option (list (N * ascii)) :=
  match fuel with
  | O => None
  | S fuel' =>
      let '(digits, after) := take_digits s in
      match digits, NilEmpty.uint_of_string digits, after with
      | String _ _, Some u, String unit EmptyString => Some [(N.of_uint u, unit)]
      | String _ _, Some u, String unit (String sep more) =>
          if Ascii.eqb sep " " then
            match parse_components fuel' more with
            | Some l => Some ((N.of_uint u, unit) :: l)
            | None => None
            end
          else None
      | _, _, _ => None
      end
  end.

Definition parse_uptime (s : string) : option (list (N * ascii)) := parse_components 4 s.

(** Days, hours, minutes and seconds read back from an uptime string,
    the units that a pattern leaves out counting as zero. *)
Definition reparse (str : string) : option (Z * Z * Z * Z) :=
  match parse_uptime str with
  | Some l =>
      match string_of_list_ascii (map snd l), map (fun c => Z.of_N (fst c)) l with
      | "dhms", [d; h; m; s] => Some (d, h, m, s)
      | "hms", [h; m; s] => Some (0, h, m, s)%Z
      | "ms", [m; s] => Some (0, 0, m, s)%Z
      | "s", [s] => Some (0, 0, 0, s)%Z
      | _, _ => None
      end
  | None => None
  end.

(** Integer breakdown of a whole number of seconds. *)
Definition breakdown (n : Z) : Z * Z * Z * Z :=
  (n / 86400, (n mod 86400) / 3600, (n mod 3600) / 60, n mod 60)%Z.

(** [clamp(p, lo, hi)] as the specification uses it. *)
Definition clamp (p lo hi : pyfloat) : pyfloat :=
  if float_lt p lo then lo else if float_lt hi p then hi else p.

(** [0.0 <= p <= 1.0] *)
Definition in_unit_interval (p : pyfloat) : bool :=
  match p with
  | Finite q => Qle_bool 0 q && Qle_bool q 1
  | _ => false
  end.

Definition chaos_on : ChaosState := {| enabled := true; probability := Finite 1 |}.
Definition chaos_off : ChaosState := {| enabled := false; probability := Finite 0 |}.

(** Requests that write [CHAOS_MODE]: the degraded and reset modes. *)
Definition enables_chaos (c : Call) : bool :=
  match c with
  | PostSimulateCrash (Some mode) _ => String.eqb mode "degraded"
  | _ => false
  end.

Definition writes_chaos (c : Call) : bool :=
  match c with
  | PostSimulateCrash (Some mode) _ => String.eqb mode "degraded" || String.eqb mode "reset"
  | _ => false
  end.

(** [CHAOS_MODE] after one request, as the specification has it:
    [enableDegraded], [reset], or no write. *)
Definition chaos_after (c : Call) (before : ChaosState) : ChaosState :=
  match c with
  | PostSimulateCrash (Some mode) p =>
      if String.eqb mode "degraded" then
        {| enabled := true;
           probability := clamp (default (Finite 1) p) (Finite 0) (Finite 1) |}
      else if String.eqb mode "reset" then chaos_off
      else before
  | _ => before
  end.

(** The paths on which the only count is the middleware's: one
    increment and one observation per request. *)
Definition counted_by_middleware_only (c : Call) (e : Env) (w : World) : Prop :=
  match c with
  | GetRoot | GetMetrics => True
  | GetHealth => chaos_triggers (CHAOS_MODE w) (draw e) = false
  | PostSimulateCrash mode _ => default "immediate" mode <> "immediate"
  end.

(** A degraded write whose [probability] argument is NaN. *)
Definition sends_nan (c : Call) : bool :=
  match c with
  | PostSimulateCrash (Some mode) (Some NaN) => String.eqb mode "degraded"
  | _ => false
  end.

(** A stage below the middleware that fails with an exception the
    framework has no status for. *)
Definition failing_stage : M Response :=
  fun w => (w, Raise (OtherException "RuntimeError")).

Definition sample_env : Env :=
  {| t_start := 10; t_handler := 11; t_end := 12; draw := 1 # 2 |}.


(** What the middleware adds to the registry once [next] is done. *)
Definition recorded (method endpoint : string) (status : Z) (duration : Q) (w : World)
  : World :=
  observe_latency method endpoint duration (count_request method endpoint status w).

(** * Properties *)

(** ** Bookkeeping of the two metric families *)

Section Registry.

Lemma counter_total_inc (key : string * string * Z) (m : counter_family) :
  map_fold (fun _ v acc => (v + acc)%N) 0%N (counter_inc key m)
  = (map_fold (fun _ v acc => (v + acc)%N) 0%N m + 1)%N.
Proof.
  unfold counter_inc.
  destruct (m !! key) as [v|] eqn:Hk; simpl.
  - rewrite <- insert_delete_eq.
    rewrite map_fold_insert_L; [|intros; lia|apply lookup_delete_eq].
    rewrite (map_fold_delete_L _ _ key v m); [lia|intros; lia|done].
  - rewrite map_fold_insert_L; [lia|intros; lia|done].
Qed.

Lemma histogram_total_observe (key : string * string) (d : Q) (m : histogram_family) :
  map_fold (fun _ (obs : list Q) acc => (length obs + acc)%nat) 0%nat
           (histogram_observe key d m)
  = S (map_fold (fun _ (obs : list Q) acc => (length obs + acc)%nat) 0%nat m).
Proof.
  unfold histogram_observe.
  destruct (m !! key) as [obs|] eqn:Hk; simpl.
  - rewrite <- insert_delete_eq.
    rewrite map_fold_insert_L; [|intros; lia|apply lookup_delete_eq].
    rewrite (map_fold_delete_L _ _ key obs m); [simpl; lia|intros; lia|done].
  - rewrite map_fold_insert_L; [simpl; lia|intros; lia|done].
Qed.

Lemma counter_inc_same (key : string * string * Z) (m : counter_family) :
  default 0%N (counter_inc key m !! key) = (default 0%N (m !! key) + 1)%N.
Proof. unfold counter_inc. by rewrite lookup_insert_eq. Qed.

Lemma counter_inc_other (key key' : string * string * Z) (m : counter_family) :
  key ≠ key' -> counter_inc key m !! key' = m !! key'.
Proof. intros Hne. unfold counter_inc. by rewrite lookup_insert_ne. Qed.

Variables (method endpoint : string) (status : Z) (d : Q) (w : World).

Lemma total_requests_count_request :
  total_requests (count_request method endpoint status w) = (total_requests w + 1)%N.
Proof. apply counter_total_inc. Qed.

Lemma total_requests_observe_latency :
  total_requests (observe_latency method endpoint d w) = total_requests w.
Proof. reflexivity. Qed.

Lemma total_observations_observe_latency :
  total_observations (observe_latency method endpoint d w) = S (total_observations w).
Proof. apply histogram_total_observe. Qed.

Lemma total_observations_count_request :
  total_observations (count_request method endpoint status w) = total_observations w.
Proof. reflexivity. Qed.

Lemma request_count_count_request :
  request_count (count_request method endpoint status w) method endpoint status
  = (request_count w method endpoint status + 1)%N.
Proof. apply counter_inc_same. Qed.

End Registry.

Lemma recorded_totals method endpoint status duration w :
  total_requests (recorded method endpoint status duration w) = (total_requests w + 1)%N
  /\ total_observations (recorded method endpoint status duration w)
     = S (total_observations w).
Proof.
  unfold recorded. split.
  - rewrite total_requests_observe_latency. apply total_requests_count_request.
  - rewrite total_observations_observe_latency.
    by rewrite total_observations_count_request.
Qed.

Lemma instrument_requests_return method endpoint t0 t1 (next : M Response) w w1 r :
  next w = (w1, Return r) ->
  instrument_requests method endpoint t0 t1 next w
  = (recorded method endpoint (status_code r) (t1 - t0)%Q w1, Return r).
Proof. intros H. unfold instrument_requests. by rewrite H. Qed.

Lemma instrument_requests_raise method endpoint t0 t1 (next : M Response) w w1 e :
  next w = (w1, Raise e) -> is_Exception e = true ->
  instrument_requests method endpoint t0 t1 next w
  = (recorded method endpoint 500 (t1 - t0)%Q w1, Raise e).
Proof. intros H He. unfold instrument_requests. by rewrite H, He. Qed.

Lemma instrument_requests_unbound method endpoint t0 t1 (next : M Response) w w1 e :
  next w = (w1, Raise e) -> is_Exception e = false ->
  instrument_requests method endpoint t0 t1 next w
  = (w1, Raise (OtherException "UnboundLocalError")).
Proof. intros H He. unfold instrument_requests. by rewrite H, He. Qed.

(** ** The route functions, path by path *)

Lemma simulate_crash_immediate p w :
  simulate_crash "immediate" p w
  = (count_request "POST" "/simulate-crash" 500 w, Raise (HTTPException 500 chaos_message)).
Proof. reflexivity. Qed.

Lemma simulate_crash_degraded p w :
  simulate_crash "degraded" p w
  = (set_chaos {| enabled := true;
                  probability := py_min (py_max p (Finite 0)) (Finite 1) |} w,
     Return (Dict (JObj
       [("status", JStr "chaos_enabled");
        ("mode", JStr "degraded");
        ("failure_probability", JNum (py_min (py_max p (Finite 0)) (Finite 1)));
        ("message", JFmt "Health endpoint will fail "
                      (float_scale (py_min (py_max p (Finite 0)) (Finite 1)) 100)
                      "% of the time")]))).
Proof. reflexivity. Qed.

Lemma simulate_crash_reset p w :
  simulate_crash "reset" p w
  = (set_chaos {| enabled := false; probability := Finite 0 |} w,
     Return (Dict (JObj
       [("status", JStr "chaos_disabled");
        ("message", JStr "Service restored to healthy state")]))).
Proof. reflexivity. Qed.

Lemma simulate_crash_unknown mode p w :
  mode <> "immediate" -> mode <> "degraded" -> mode <> "reset" ->
  simulate_crash mode p w = (w, Raise (HTTPException 400 (unknown_mode_detail mode))).
Proof.
  intros H1 H2 H3. unfold simulate_crash.
  apply String.eqb_neq in H1, H2, H3. by rewrite H1, H2, H3.
Qed.

Lemma health_check_fails now draw w :
  chaos_triggers (CHAOS_MODE w) draw = true ->
  health_check now draw w
  = (count_request "GET" "/health" 503 (set_uptime (now - START_TIME w)%Q w),
     Raise (HTTPException 503 degraded_detail)).
Proof.
  intros H. unfold health_check, bind, read, update, raise; simpl. by rewrite H.
Qed.

Lemma health_check_passes now draw w :
  chaos_triggers (CHAOS_MODE w) draw = false ->
  health_check now draw w
  = (set_uptime (now - START_TIME w)%Q w,
     Return (Resp {| status_code := 200;
                     content := JSON (JObj
                       [("status", JStr "healthy");
                        ("uptime", JNum (Finite (py_round2 (now - START_TIME w)%Q)));
                        ("uptime_formatted", JStr (format_uptime (now - START_TIME w)%Q));
                        ("chaos_mode", JBool (enabled (CHAOS_MODE w)))]) |})).
Proof.
  intros H. unfold health_check, bind, read, update, ret; simpl. by rewrite H.
Qed.

(** ** Whole requests *)

Lemma serve_immediate p e w :
  serve (PostSimulateCrash (Some "immediate") p) e w
  = (recorded "POST" "/simulate-crash" 500 (t_end e - t_start e)%Q
       (count_request "POST" "/simulate-crash" 500 w),
     Return (fault_response 500 chaos_message)).
Proof. reflexivity. Qed.

Lemma serve_degraded p e w :
  fst (serve (PostSimulateCrash (Some "degraded") p) e w)
  = recorded "POST" "/simulate-crash"
      (if is_finite (py_min (py_max (default (Finite 1) p) (Finite 0)) (Finite 1))
       then 200 else 500)
      (t_end e - t_start e)%Q
      (set_chaos {| enabled := true;
                    probability := py_min (py_max (default (Finite 1) p) (Finite 0))
                                          (Finite 1) |} w).
Proof.
  unfold serve, instrument_requests, call_next, route.
  change (default "immediate" (Some "degraded")) with "degraded".
  rewrite simulate_crash_degraded.
  generalize (py_min (py_max (default (Finite 1) p) (Finite 0)) (Finite 1)).
  by intros [q| | |].
Qed.

Lemma serve_reset p e w :
  serve (PostSimulateCrash (Some "reset") p) e w
  = (recorded "POST" "/simulate-crash" 200 (t_end e - t_start e)%Q
       (set_chaos {| enabled := false; probability := Finite 0 |} w),
     snd (serve (PostSimulateCrash (Some "reset") p) e w)).
Proof. reflexivity. Qed.

Lemma serve_unknown mode p e w :
  mode <> "immediate" -> mode <> "degraded" -> mode <> "reset" ->
  serve (PostSimulateCrash (Some mode) p) e w
  = (recorded "POST" "/simulate-crash" 400 (t_end e - t_start e)%Q w,
     Return (fault_response 400 (unknown_mode_detail mode))).
Proof.
  intros H1 H2 H3. unfold serve.
  rewrite (instrument_requests_return _ _ _ _ _ w w
             (fault_response 400 (unknown_mode_detail mode))); [reflexivity|].
  unfold call_next, route; simpl. by rewrite simulate_crash_unknown.
Qed.

Lemma serve_health_fails e w :
  chaos_triggers (CHAOS_MODE w) (draw e) = true ->
  serve GetHealth e w
  = (recorded "GET" "/health" 503 (t_end e - t_start e)%Q
       (count_request "GET" "/health" 503
          (set_uptime (t_handler e - START_TIME w)%Q w)),
     Return (fault_response 503 degraded_detail)).
Proof.
  intros H. unfold serve.
  rewrite (instrument_requests_return _ _ _ _ _ w
             (count_request "GET" "/health" 503
                (set_uptime (t_handler e - START_TIME w)%Q w))
             (fault_response 503 degraded_detail)); [reflexivity|].
  unfold call_next, route. by rewrite health_check_fails.
Qed.

Lemma serve_health_passes e w :
  chaos_triggers (CHAOS_MODE w) (draw e) = false ->
  serve GetHealth e w
  = (recorded "GET" "/health" 200 (t_end e - t_start e)%Q
       (set_uptime (t_handler e - START_TIME w)%Q w),
     Return {| status_code := 200;
               content := JSON (JObj
                 [("status", JStr "healthy");
                  ("uptime", JNum (Finite (py_round2 (t_handler e - START_TIME w)%Q)));
                  ("uptime_formatted", JStr (format_uptime (t_handler e - START_TIME w)%Q));
                  ("chaos_mode", JBool (enabled (CHAOS_MODE w)))]) |}).
Proof.
  intros H. unfold serve. unfold instrument_requests, call_next, route.
  by rewrite health_check_passes.
Qed.

Lemma serve_counts_once c e w :
  counted_by_middleware_only c e w ->
  total_requests (fst (serve c e w)) = (total_requests w + 1)%N
  /\ total_observations (fst (serve c e w)) = S (total_observations w).
Proof.
  destruct c as [| | |mode p]; simpl; intros H.
  - apply (recorded_totals "GET" "/" 200).
  - rewrite serve_health_passes by done.
    exact (recorded_totals "GET" "/health" 200 _ (set_uptime _ w)).
  - exact (recorded_totals "GET" "/metrics" 200 _ (set_uptime _ w)).
  - destruct mode as [mode|]; [|done]. simpl in H.
    destruct (String.eqb_spec mode "degraded") as [->|Hd].
    { rewrite serve_degraded. exact (recorded_totals _ _ _ _ (set_chaos _ w)). }
    destruct (String.eqb_spec mode "reset") as [->|Hr].
    { rewrite serve_reset. exact (recorded_totals _ _ _ _ (set_chaos _ w)). }
    rewrite serve_unknown by done. apply recorded_totals.
Qed.

(** C1. At a failing input the request counter moves by two, not one:
    an immediate chaos call, and a health check that takes the chaos
    branch, are counted by the route function and again by the
    middleware.  The latency is observed once. *)
Theorem chaos_faults_counted_twice :
  (forall p e w,
     let w' := fst (serve (PostSimulateCrash (Some "immediate") p) e w) in
     total_requests w' = (total_requests w + 2)%N
     /\ total_observations w' = S (total_observations w))
  /\ (forall t0 t1 t2 w,
        let e := {| t_start := t0; t_handler := t1; t_end := t2; draw := 1 # 2 |} in
        let w' := fst (serve GetHealth e (set_chaos chaos_on w)) in
        snd (serve GetHealth e (set_chaos chaos_on w))
        = Return (fault_response 503 degraded_detail)
        /\ total_requests w' = (total_requests w + 2)%N
        /\ total_observations w' = S (total_observations w)).
Proof.
  split.
  - intros p e w. rewrite serve_immediate. simpl.
    destruct (recorded_totals "POST" "/simulate-crash" 500 (t_end e - t_start e)%Q
                (count_request "POST" "/simulate-crash" 500 w)) as [Hc Ho].
    rewrite Hc, Ho, total_requests_count_request. split; [lia|done].
  - intros t0 t1 t2 w. cbv zeta.
    rewrite serve_health_fails by reflexivity. simpl.
    match goal with
    | |- _ /\ total_requests (recorded ?m ?p ?s ?d ?x) = _ /\ _ =>
        destruct (recorded_totals m p s d x) as [Hc Ho]
    end.
    rewrite Hc, Ho, total_requests_count_request. split; [done|]. split; [|done].
    change (total_requests (set_uptime _ (set_chaos chaos_on w))) with (total_requests w).
    lia.
Qed.

(** C2. An immediate chaos call answers 500 with the fixed message, and
    moves the counter of (POST, /simulate-crash, 500) by two. *)
Theorem immediate_counted_twice p e w :
  snd (serve (PostSimulateCrash (Some "immediate") p) e w)
  = Return (fault_response 500 chaos_message)
  /\ request_count (fst (serve (PostSimulateCrash (Some "immediate") p) e w))
       "POST" "/simulate-crash" 500
     = (request_count w "POST" "/simulate-crash" 500 + 2)%N.
Proof.
  rewrite serve_immediate. split; [reflexivity|]. simpl.
  unfold recorded.
  change (request_count (observe_latency ?m ?p ?d ?x)) with (request_count x).
  rewrite !request_count_count_request. lia.
Qed.

(** The double count does not depend on how the layer between the
    middleware and the route function turns exceptions into responses,
    as long as that layer leaves the state alone and hands on a response
    or an [Exception]. *)
Lemma double_count_under_any_exception_layer (layer : M payload -> M Response) :
  (forall handler w, fst (layer handler w) = fst (handler w)) ->
  (forall handler w e, snd (layer handler w) = Raise e -> is_Exception e = true) ->
  forall method endpoint t0 t1 p w,
    total_requests
      (fst (instrument_requests method endpoint t0 t1
              (layer (simulate_crash "immediate" p)) w))
    = (total_requests w + 2)%N.
Proof.
  intros Hlayer Hexn method endpoint t0 t1 p w. unfold instrument_requests.
  pose proof (Hlayer (simulate_crash "immediate" p) w) as Hw.
  pose proof (Hexn (simulate_crash "immediate" p) w) as He.
  destruct (layer (simulate_crash "immediate" p) w) as [w1 [r|e]]; simpl in *; subst w1.
  - rewrite total_requests_observe_latency, !total_requests_count_request. lia.
  - rewrite (He e eq_refl). simpl.
    rewrite total_requests_observe_latency, !total_requests_count_request. lia.
Qed.


(** C10. Without a [mode] parameter the chaos endpoint does what
    [mode=immediate] does: the caller gets the 500 chaos fault and the
    counter of (POST, /simulate-crash, 500) has grown. *)
Theorem bare_post_is_immediate p e w :
  serve (PostSimulateCrash None p) e w
  = serve (PostSimulateCrash (Some "immediate") p) e w
  /\ snd (serve (PostSimulateCrash None p) e w)
     = Return (fault_response 500 chaos_message)
  /\ (request_count w "POST" "/simulate-crash" 500
      < request_count (fst (serve (PostSimulateCrash None p) e w))
          "POST" "/simulate-crash" 500)%N.
Proof.
  split; [reflexivity|]. split; [reflexivity|].
  change (serve (PostSimulateCrash None p) e w)
    with (serve (PostSimulateCrash (Some "immediate") p) e w).
  rewrite serve_immediate. simpl. unfold recorded.
  change (request_count (observe_latency ?m ?q ?d ?x)) with (request_count x).
  rewrite !request_count_count_request. lia.
Qed.

(** ** The chaos toggle *)

Lemma Qltb_lt x y : Qltb x y = true <-> (x < y)%Q.
Proof.
  unfold Qltb. rewrite negb_true_iff.
  split.
  - intros H. apply Qnot_le_lt. intros Hle. apply Qle_bool_iff in Hle. congruence.
  - intros H. destruct (Qle_bool y x) eqn:E; [|done].
    apply Qle_bool_iff in E. lra.
Qed.

Lemma Qltb_ge x y : Qltb x y = false <-> (y <= x)%Q.
Proof.
  unfold Qltb. rewrite negb_false_iff. apply Qle_bool_iff.
Qed.

(** The code's [min(max(p, 0.0), 1.0)] is the specification's clamp. *)
Lemma min_max_is_clamp p :
  py_min (py_max p (Finite 0)) (Finite 1) = clamp p (Finite 0) (Finite 1).
Proof.
  unfold py_min, py_max, clamp.
  destruct p as [q| | |]; try reflexivity. simpl.
  destruct (Qltb q 0) eqn:E0; simpl.
  - reflexivity.
  - reflexivity.
Qed.

Lemma clamp_in_unit_interval p :
  p <> NaN -> in_unit_interval (clamp p (Finite 0) (Finite 1)) = true.
Proof.
  intros Hp. unfold clamp.
  destruct p as [q| | |]; try done. simpl.
  destruct (Qltb q 0) eqn:E0; [reflexivity|].
  destruct (Qltb 1 q) eqn:E1; [reflexivity|].
  apply Qltb_ge in E0, E1. simpl.
  apply andb_true_iff. split; by apply Qle_bool_iff.
Qed.

Lemma serve_chaos_mode c e w :
  CHAOS_MODE (fst (serve c e w)) = chaos_after c (CHAOS_MODE w).
Proof.
  destruct c as [| | |[mode|] p]; try reflexivity.
  - destruct (chaos_triggers (CHAOS_MODE w) (draw e)) eqn:E.
    + by rewrite serve_health_fails.
    + by rewrite serve_health_passes.
  - unfold chaos_after.
    destruct (String.eqb_spec mode "degraded") as [->|Hd].
    { rewrite serve_degraded. simpl. by rewrite min_max_is_clamp. }
    destruct (String.eqb_spec mode "reset") as [->|Hr].
    { by rewrite serve_reset. }
    destruct (String.eqb_spec mode "immediate") as [->|Hi].
    { by rewrite serve_immediate. }
    by rewrite serve_unknown.
Qed.

Lemma serve_start_time c e w : START_TIME (fst (serve c e w)) = START_TIME w.
Proof.
  destruct c as [| | |[mode|] p]; try reflexivity.
  - destruct (chaos_triggers (CHAOS_MODE w) (draw e)) eqn:E.
    + by rewrite serve_health_fails.
    + by rewrite serve_health_passes.
  - destruct (String.eqb_spec mode "degraded") as [->|Hd]; [by rewrite serve_degraded|].
    destruct (String.eqb_spec mode "reset") as [->|Hr]; [by rewrite serve_reset|].
    destruct (String.eqb_spec mode "immediate") as [->|Hi]; [by rewrite serve_immediate|].
    by rewrite serve_unknown.
Qed.

(** What [GET /health] answers depends on the start time and on the
    chaos toggle only. *)
Lemma health_response_depends e w1 w2 :
  START_TIME w1 = START_TIME w2 -> CHAOS_MODE w1 = CHAOS_MODE w2 ->
  snd (serve GetHealth e w1) = snd (serve GetHealth e w2).
Proof.
  intros Hs Hc.
  destruct (chaos_triggers (CHAOS_MODE w1) (draw e)) eqn:E.
  - rewrite (serve_health_fails e w1) by done.
    rewrite (serve_health_fails e w2) by (by rewrite <- Hc). done.
  - rewrite (serve_health_passes e w1) by done.
    rewrite (serve_health_passes e w2) by (by rewrite <- Hc).
    simpl. by rewrite Hs, Hc.
Qed.

(** An invariant of the state that the requests of a sequence keep
    holds at every request of the sequence. *)
Lemma serve_all_invariant (I : World -> Prop) (P : Call * Env -> Prop) :
  (forall c e w, P (c, e) -> I w -> I (fst (serve c e w))) ->
  forall reqs w0, Forall P reqs -> I w0 ->
    I (fst (serve_all reqs w0))
    /\ forall i c e, reqs !! i = Some (c, e) ->
         exists wi, I wi /\ snd (serve_all reqs w0) !! i = Some (snd (serve c e wi)).
Proof.
  intros Hstep reqs. induction reqs as [|[c e] rest IH]; intros w0 HP HI.
  - split; [done|]. intros i c e Hi. by rewrite lookup_nil in Hi.
  - apply Forall_cons in HP as [Hce Hrest]. simpl.
    destruct (serve c e w0) as [w1 r] eqn:E1.
    destruct (serve_all rest w1) as [w2 rs] eqn:E2.
    assert (HI1 : I w1).
    { specialize (Hstep c e w0 Hce HI). by rewrite E1 in Hstep. }
    destruct (IH w1 Hrest HI1) as [Hend Hat]. rewrite E2 in Hend, Hat.
    split; [done|]. intros [|i] c' e' Hi; simpl in *.
    + injection Hi as <- <-. exists w0. by rewrite E1.
    + by apply Hat.
Qed.

Lemma chaos_disabled_never_triggers c d : enabled c = false -> chaos_triggers c d = false.
Proof. intros H. unfold chaos_triggers. by rewrite H. Qed.

Lemma chaos_certain_always_triggers c d :
  enabled c = true -> (exists q, probability c = Finite q /\ (q == 1)%Q) ->
  (0 <= d < 1)%Q -> chaos_triggers c d = true.
Proof.
  intros He [q [Hp Hq]] [_ Hd]. unfold chaos_triggers. rewrite He, Hp. simpl.
  apply Qltb_lt. lra.
Qed.

Lemma disabled_stays_disabled c e w :
  enables_chaos c = false -> enabled (CHAOS_MODE w) = false ->
  enabled (CHAOS_MODE (fst (serve c e w))) = false.
Proof.
  intros Hc Hw. rewrite serve_chaos_mode.
  destruct c as [| | |[mode|] p]; try done. simpl in *. rewrite Hc.
  by destruct (String.eqb mode "reset").
Qed.

Lemma untouched_chaos_stays c e w :
  writes_chaos c = false -> CHAOS_MODE (fst (serve c e w)) = CHAOS_MODE w.
Proof.
  intros Hc. rewrite serve_chaos_mode.
  destruct c as [| | |[mode|] p]; try done. simpl in *.
  apply orb_false_iff in Hc as [-> ->]. done.
Qed.

Example clamp_samples :
  map (fun p => clamp (Finite p) (Finite 0) (Finite 1)) [-5; 0; 3 # 10; 1; 7]%Q
  = map Finite [0; 0; 3 # 10; 1; 1]%Q.
Proof. reflexivity. Qed.

(** C4. At the failing input [probability=nan] the two comparisons of
    [min(max(p, 0.0), 1.0)] are both false: the toggle is enabled and
    NaN is stored, which is outside [0.0, 1.0].  From then on no draw
    is below the stored probability. *)
Theorem degraded_nan_is_stored e w :
  CHAOS_MODE (fst (serve (PostSimulateCrash (Some "degraded") (Some NaN)) e w))
  = {| enabled := true; probability := NaN |}
  /\ in_unit_interval
       (probability
          (CHAOS_MODE (fst (serve (PostSimulateCrash (Some "degraded") (Some NaN)) e w))))
     = false
  /\ forall d,
       chaos_triggers
         (CHAOS_MODE (fst (serve (PostSimulateCrash (Some "degraded") (Some NaN)) e w))) d
       = false.
Proof. rewrite serve_degraded. simpl. by split; [|split]. Qed.

(** Away from NaN the degraded write stores the clamp of its argument,
    which lies in [0.0, 1.0], and enables the toggle. *)
Lemma degraded_stores_clamp p e w :
  CHAOS_MODE (fst (serve (PostSimulateCrash (Some "degraded") (Some p)) e w))
  = {| enabled := true; probability := clamp p (Finite 0) (Finite 1) |}
  /\ (p <> NaN ->
      in_unit_interval
        (probability
           (CHAOS_MODE (fst (serve (PostSimulateCrash (Some "degraded") (Some p)) e w))))
      = true).
Proof.
  rewrite serve_chaos_mode. simpl. split; [done|]. apply clamp_in_unit_interval.
Qed.

(** C5. Once a reset has been served, and for as long as no degraded
    write is served, the chaos test is false for every draw in every
    state reached, and every health check answers 200. *)
Theorem reset_silences_chaos p e w (reqs : list (Call * Env)) :
  Forall (fun ce => enables_chaos (fst ce) = false) reqs ->
  let w0 := fst (serve (PostSimulateCrash (Some "reset") p) e w) in
  CHAOS_MODE w0 = {| enabled := false; probability := Finite 0 |}
  /\ (forall n d,
        chaos_triggers (CHAOS_MODE (fst (serve_all (take n reqs) w0))) d = false)
  /\ (forall i e',
        reqs !! i = Some (GetHealth, e') ->
        exists r, snd (serve_all reqs w0) !! i = Some (Return r) /\ status_code r = 200%Z).
Proof.
  intros Hreqs w0.
  assert (H0 : enabled (CHAOS_MODE w0) = false) by reflexivity.
  pose proof (serve_all_invariant
                (fun w => enabled (CHAOS_MODE w) = false)
                (fun ce => enables_chaos (fst ce) = false)
                (fun c e w Hc Hw => disabled_stays_disabled c e w Hc Hw)) as Hinv.
  split; [reflexivity|]. split.
  - intros n d. apply chaos_disabled_never_triggers.
    apply (Hinv (take n reqs) w0); [by apply Forall_take|done].
  - intros i e' Hi.
    destruct (Hinv reqs w0 Hreqs H0) as [_ Hat].
    destruct (Hat i GetHealth e' Hi) as [wi [Hwi Hres]].
    rewrite Hres.
    rewrite serve_health_passes by (by apply chaos_disabled_never_triggers).
    eexists. split; [reflexivity|reflexivity].
Qed.

Lemma reset_silences_chaos_witness :
  let reqs := [(GetHealth, sample_env);
               (PostSimulateCrash (Some "bogus") None, sample_env);
               (PostSimulateCrash None None, sample_env);
               (GetHealth, sample_env)] in
  let w0 := fst (serve (PostSimulateCrash (Some "reset") None) sample_env
                   (set_chaos chaos_on (initial_world 0))) in
  CHAOS_MODE w0 = {| enabled := false; probability := Finite 0 |}
  /\ (forall n d,
        chaos_triggers (CHAOS_MODE (fst (serve_all (take n reqs) w0))) d = false)
  /\ (forall i e',
        reqs !! i = Some (GetHealth, e') ->
        exists r, snd (serve_all reqs w0) !! i = Some (Return r) /\ status_code r = 200%Z).
Proof.
  apply (reset_silences_chaos None sample_env (set_chaos chaos_on (initial_world 0))).
  repeat constructor.
Defined.

(** C6. After a degraded write with probability 1.0 every health check
    answers 503, whatever its draw in [0, 1); after a reset every
    health check answers 200.  Both hold for as long as no request
    writes the toggle again. *)
Theorem degraded_one_then_reset q p e w (reqs : list (Call * Env)) :
  (q == 1)%Q ->
  Forall (fun ce => writes_chaos (fst ce) = false /\ (0 <= draw (snd ce) < 1)%Q) reqs ->
  (let w0 := fst (serve (PostSimulateCrash (Some "degraded") (Some (Finite q))) e w) in
   forall i e',
     reqs !! i = Some (GetHealth, e') ->
     snd (serve_all reqs w0) !! i = Some (Return (fault_response 503 degraded_detail)))
  /\ (let w0 := fst (serve (PostSimulateCrash (Some "reset") p) e w) in
      forall i e',
        reqs !! i = Some (GetHealth, e') ->
        exists r, snd (serve_all reqs w0) !! i = Some (Return r) /\ status_code r = 200%Z).
Proof.
  intros Hq Hreqs. split; intros w0 i e' Hi.
  - assert (H0 : CHAOS_MODE w0 = {| enabled := true; probability := Finite q |}).
    { subst w0. rewrite serve_degraded. simpl. f_equal.
      unfold py_min, py_max. simpl.
      assert (E0 : Qltb q 0 = false) by (apply Qltb_ge; lra).
      assert (E1 : Qltb 1 q = false) by (apply Qltb_ge; lra).
      by rewrite E0, E1. }
    destruct (serve_all_invariant
                (fun w => CHAOS_MODE w = {| enabled := true; probability := Finite q |})
                (fun ce => writes_chaos (fst ce) = false /\ (0 <= draw (snd ce) < 1)%Q)
                (fun c e w Hc Hw => eq_trans (untouched_chaos_stays c e w (proj1 Hc)) Hw)
                reqs w0 Hreqs H0) as [_ Hat].
    destruct (Hat i GetHealth e' Hi) as [wi [Hwi Hres]]. rewrite Hres.
    rewrite Forall_lookup in Hreqs. destruct (Hreqs i _ Hi) as [_ Hdraw].
    rewrite serve_health_fails; [done|].
    apply chaos_certain_always_triggers; [by rewrite Hwi| |done].
    exists q. by rewrite Hwi.
  - assert (H0 : enabled (CHAOS_MODE w0) = false) by reflexivity.
    destruct (serve_all_invariant
                (fun w => enabled (CHAOS_MODE w) = false)
                (fun ce => writes_chaos (fst ce) = false /\ (0 <= draw (snd ce) < 1)%Q)
                (fun c e w Hc Hw =>
                   eq_trans (f_equal enabled (untouched_chaos_stays c e w (proj1 Hc))) Hw)
                reqs w0 Hreqs H0) as [_ Hat].
    destruct (Hat i GetHealth e' Hi) as [wi [Hwi Hres]]. rewrite Hres.
    rewrite serve_health_passes by (by apply chaos_disabled_never_triggers).
    eexists. split; reflexivity.
Qed.

Lemma degraded_one_then_reset_witness :
  let reqs := [(GetHealth, sample_env);
               (GetMetrics, sample_env);
               (GetHealth, {| t_start := 20; t_handler := 21; t_end := 22; draw := 0 |});
               (GetHealth, {| t_start := 30; t_handler := 31; t_end := 32;
                              draw := 999 # 1000 |})] in
  (let w0 := fst (serve (PostSimulateCrash (Some "degraded") (Some (Finite 1))) sample_env
                    (initial_world 0)) in
   forall i e',
     reqs !! i = Some (GetHealth, e') ->
     snd (serve_all reqs w0) !! i = Some (Return (fault_response 503 degraded_detail)))
  /\ (let w0 := fst (serve (PostSimulateCrash (Some "reset") None) sample_env
                       (initial_world 0)) in
      forall i e',
        reqs !! i = Some (GetHealth, e') ->
        exists r, snd (serve_all reqs w0) !! i = Some (Return r) /\ status_code r = 200%Z).
Proof.
  apply (degraded_one_then_reset 1 None sample_env (initial_world 0)).
  - reflexivity.
  - repeat constructor; simpl; lra.
Defined.

(** C7. A mode outside the three known ones is answered with 400 and a
    detail naming it; the chaos toggle keeps both fields, and a health
    check served next answers, and leaves the toggle, as it would have
    without the call. *)
Theorem unknown_mode_rejected mode p e w :
  mode <> "immediate" -> mode <> "degraded" -> mode <> "reset" ->
  let w' := fst (serve (PostSimulateCrash (Some mode) p) e w) in
  snd (serve (PostSimulateCrash (Some mode) p) e w)
  = Return {| status_code := 400;
              content := JSON (JObj
                [("detail",
                  JStr ("Unknown mode: " +:+ mode
                        +:+ ". Use 'immediate', 'degraded', or 'reset'"))]) |}
  /\ enabled (CHAOS_MODE w') = enabled (CHAOS_MODE w)
  /\ probability (CHAOS_MODE w') = probability (CHAOS_MODE w)
  /\ forall e',
       snd (serve GetHealth e' w') = snd (serve GetHealth e' w)
       /\ CHAOS_MODE (fst (serve GetHealth e' w')) = CHAOS_MODE (fst (serve GetHealth e' w)).
Proof.
  intros H1 H2 H3 w'. subst w'. rewrite serve_unknown by done. simpl.
  split; [reflexivity|]. split; [reflexivity|]. split; [reflexivity|].
  intros e'. split.
  - by apply health_response_depends.
  - by rewrite !serve_chaos_mode.
Qed.

Lemma unknown_mode_rejected_witness :
  let w := set_chaos chaos_on (initial_world 0) in
  let w' := fst (serve (PostSimulateCrash (Some "bogus") None) sample_env w) in
  snd (serve (PostSimulateCrash (Some "bogus") None) sample_env w)
  = Return {| status_code := 400;
              content := JSON (JObj
                [("detail",
                  JStr "Unknown mode: bogus. Use 'immediate', 'degraded', or 'reset'")]) |}
  /\ enabled (CHAOS_MODE w') = enabled (CHAOS_MODE w)
  /\ probability (CHAOS_MODE w') = probability (CHAOS_MODE w)
  /\ forall e',
       snd (serve GetHealth e' w') = snd (serve GetHealth e' w)
       /\ CHAOS_MODE (fst (serve GetHealth e' w')) = CHAOS_MODE (fst (serve GetHealth e' w)).
Proof.
  apply (unknown_mode_rejected "bogus" None sample_env (set_chaos chaos_on (initial_world 0)));
    discriminate.
Defined.

(** ** The health payload *)

Lemma Qmake_100 (k : Z) : (k # 100 == inject_Z k * (1 # 100))%Q.
Proof. unfold Qeq. simpl. lia. Qed.

(** [round(x, 2)] is a multiple of 1/100 at most 1/200 away from [x]. *)
Lemma py_round2_spec x :
  exists k : Z, py_round2 x = (k # 100)%Q
                /\ (x - (1 # 200) <= py_round2 x <= x + (1 # 200))%Q.
Proof.
  unfold py_round2.
  pose proof (Qfloor_le (x * 100)) as Hlo.
  pose proof (Qlt_floor (x * 100)) as Hhi.
  rewrite inject_Z_plus in Hhi. change (inject_Z 1) with 1%Q in Hhi.
  set (n := Qfloor (x * 100)) in *.
  destruct (Qcompare_spec (x * 100 - inject_Z n) (1 # 2)) as [He|Hl|Hg].
  - destruct (Z.odd n).
    + exists (n + 1)%Z. split; [done|].
      rewrite Qmake_100, inject_Z_plus. change (inject_Z 1) with 1%Q. split; lra.
    + exists n. split; [done|]. rewrite Qmake_100. split; lra.
  - exists n. split; [done|]. rewrite Qmake_100. split; lra.
  - exists (n + 1)%Z. split; [done|].
    rewrite Qmake_100, inject_Z_plus. change (inject_Z 1) with 1%Q. split; lra.
Qed.

(** C9. A health check that does not take the chaos branch answers 200
    with the four fields [status], [uptime], [uptime_formatted] and
    [chaos_mode], the uptime being the elapsed time rounded to a
    multiple of 1/100; one that takes the chaos branch answers 503
    with the fixed detail. *)
Theorem health_check_response e w :
  let elapsed := (t_handler e - START_TIME w)%Q in
  (chaos_triggers (CHAOS_MODE w) (draw e) = false ->
   snd (serve GetHealth e w)
   = Return {| status_code := 200;
               content := JSON (JObj
                 [("status", JStr "healthy");
                  ("uptime", JNum (Finite (py_round2 elapsed)));
                  ("uptime_formatted", JStr (format_uptime elapsed));
                  ("chaos_mode", JBool (enabled (CHAOS_MODE w)))]) |})
  /\ (chaos_triggers (CHAOS_MODE w) (draw e) = true ->
      snd (serve GetHealth e w)
      = Return {| status_code := 503;
                  content := JSON (JObj
                    [("detail", JStr "Service degraded (chaos mode active)")]) |})
  /\ (exists k : Z, py_round2 elapsed = (k # 100)%Q
                    /\ (elapsed - (1 # 200) <= py_round2 elapsed <= elapsed + (1 # 200))%Q).
Proof.
  intros elapsed. split; [|split].
  - intros H. by rewrite serve_health_passes.
  - intros H. by rewrite serve_health_fails.
  - apply py_round2_spec.
Qed.

Lemma health_check_response_witness :
  snd (serve GetHealth sample_env (initial_world 0))
  = Return {| status_code := 200;
              content := JSON (JObj
                [("status", JStr "healthy");
                 ("uptime", JNum (Finite (py_round2 (11 - 0))));
                 ("uptime_formatted", JStr (format_uptime (11 - 0)));
                 ("chaos_mode", JBool false)]) |}
  /\ snd (serve GetHealth sample_env (set_chaos chaos_on (initial_world 0)))
     = Return {| status_code := 503;
                 content := JSON (JObj
                   [("detail", JStr "Service degraded (chaos mode active)")]) |}.
Proof.
  split.
  - apply (proj1 (health_check_response sample_env (initial_world 0))). reflexivity.
  - apply (proj1 (proj2 (health_check_response sample_env
                           (set_chaos chaos_on (initial_world 0))))).
    reflexivity.
Defined.

(** ** Uptime formatting *)

Lemma Qfloor_nonneg q : (0 <= q)%Q -> (0 <= Qfloor q)%Z.
Proof. intros H. change 0%Z with (Qfloor 0). by apply Qfloor_resp_le. Qed.

Section Rounding.

Lemma pow2_nonpos_inv s : (s <= 0)%Z -> (inject_Z (2 ^ (- s)) * pow2 s == 1)%Q.
Proof.
  intros Hs. unfold pow2. destruct (Z.leb_spec 0 s) as [H0|H0].
  - assert (s = 0%Z) as -> by lia. reflexivity.
  - assert (HP : (0 < 2 ^ (- s))%Z) by (apply Z.pow_pos_nonneg; lia).
    unfold Qeq. simpl. rewrite Pos.mul_1_l, Z2Pos.id by done. lia.
Qed.

Lemma Qdiv_by_inverse a b c : (c * b == 1)%Q -> (a / b == a * c)%Q.
Proof.
  intros H.
  assert (Hb : ~ (b == 0)%Q) by (intros Hz; rewrite Hz in H; lra).
  transitivity (a * (c * b) / b)%Q; [by rewrite H, Qmult_1_r|].
  by field.
Qed.

Lemma round_half_even_Z s m : (s == inject_Z m)%Q -> round_half_even s = m.
Proof.
  intros Hs. unfold round_half_even.
  rewrite (Qfloor_comp _ _ Hs), Qfloor_Z.
  destruct (Qcompare_spec (s - inject_Z m) (1 # 2)) as [He|Hl|Hg]; [lra|done|lra].
Qed.

Lemma binary_exponent_Z z : (0 < z)%Z -> binary_exponent (inject_Z z) = Z.log2 z.
Proof.
  intros Hz. unfold binary_exponent. simpl. rewrite Z.sub_0_r.
  pose proof (Z.log2_nonneg z) as Hnn. pose proof (Z.log2_spec z Hz) as [Hlo _].
  assert (Hle : Qle_bool (pow2 (Z.log2 z)) (inject_Z z) = true).
  { apply Qle_bool_iff. unfold pow2.
    destruct (Z.leb_spec 0 (Z.log2 z)); [|lia]. by rewrite <- Zle_Qle. }
  by rewrite Hle.
Qed.

Lemma binary64_round_nonneg_Z z :
  (0 <= z < 2 ^ 53)%Z -> (binary64_round (inject_Z z) == inject_Z z)%Q.
Proof.
  intros [H0 H53]. unfold binary64_round. rewrite inject_Z_Qred.
  destruct z as [|p|p]; [reflexivity| |lia].
  cbn [Qnum inject_Z Z.ltb Z.compare].
  change (Qabs (inject_Z (Z.pos p))) with (inject_Z (Z.pos p)).
  rewrite binary_exponent_Z by lia.
  assert (HL : (0 <= Z.log2 (Z.pos p) < 53)%Z).
  { split; [apply Z.log2_nonneg|]. by apply Z.log2_lt_pow2. }
  rewrite Z.max_l by lia.
  set (s := (Z.log2 (Z.pos p) - 52)%Z).
  pose proof (pow2_nonpos_inv s ltac:(lia)) as Hinv.
  assert (Hscaled : (inject_Z (Z.pos p) / pow2 s
                     == inject_Z (Z.pos p * 2 ^ (- s)))%Q).
  { rewrite inject_Z_mult. by apply Qdiv_by_inverse. }
  rewrite (round_half_even_Z _ _ Hscaled), inject_Z_mult.
  rewrite <- Qmult_assoc, Hinv. ring.
Qed.

Lemma binary64_round_opp q : (binary64_round (- q) == - binary64_round q)%Q.
Proof.
  unfold binary64_round. rewrite Qred_opp.
  destruct (Qred q) as [[|n|n] d]; simpl Qnum; cbn [Qopp Qnum Z.opp Z.ltb Z.compare];
    [reflexivity| |].
  - change (Qabs (- (Z.pos n # d))) with (Z.pos n # d).
    change (Qabs (Z.pos n # d)) with (Z.pos n # d). reflexivity.
  - change (Qabs (- (Z.neg n # d))) with (Z.pos n # d).
    change (Qabs (Z.neg n # d)) with (Z.pos n # d).
    cbn [Z.opp Z.ltb Z.compare]. symmetry. apply Qopp_involutive.
Qed.

(** Rounding does not look at the representation of its argument. *)
Lemma binary64_round_comp q q' : (q == q')%Q -> binary64_round q = binary64_round q'.
Proof. intros H. unfold binary64_round. by rewrite (Qred_complete q q' H). Qed.

(** Integers below 2^53 in absolute value are binary64 values. *)
Lemma binary64_round_exact q z :
  (q == inject_Z z)%Q -> (Z.abs z < 2 ^ 53)%Z -> (binary64_round q == inject_Z z)%Q.
Proof.
  intros Hq Hz. rewrite (binary64_round_comp _ _ Hq).
  destruct (Z.le_gt_cases 0 z) as [Hnn|Hneg].
  - apply binary64_round_nonneg_Z. lia.
  - assert (Hopp : (inject_Z z == - inject_Z (- z))%Q).
    { rewrite inject_Z_opp. ring. }
    rewrite (binary64_round_comp _ _ Hopp), binary64_round_opp.
    rewrite binary64_round_nonneg_Z by lia. by rewrite Hopp.
Qed.

End Rounding.

(** The float operators on a non-negative duration below 2^53 seconds:
    no step rounds, and they are the floor division and the remainder of
    the rationals. *)
Section ExactRange.

Lemma py_int_inject_Z z : py_int (inject_Z z) = z.
Proof. unfold py_int. simpl. apply Z.quot_1_r. Qed.

Lemma py_int_nonneg r : (0 <= r)%Q -> py_int r = Qfloor r.
Proof.
  destruct r as [a b]. unfold Qle, py_int. simpl. intros Ha.
  apply Z.quot_div_nonneg; lia.
Qed.

Lemma Qfloor_div_pos q (k : positive) :
  Qfloor (q / inject_Z (Zpos k)) = (Qfloor q / Zpos k)%Z.
Proof.
  destruct q as [a b]. unfold Qdiv, Qmult, Qinv. simpl.
  rewrite Z.mul_1_r, Pos2Z.inj_mul. by rewrite Z.div_div by lia.
Qed.

Lemma Qfloor_sub_Z q z : Qfloor (q - inject_Z z) = (Qfloor q - z)%Z.
Proof.
  destruct q as [a b]. unfold Qminus, Qplus, Qopp. simpl.
  rewrite Pos.mul_1_r, Z.mul_1_r, Z.div_add by lia. lia.
Qed.

Lemma Qdiv_pos_nonneg q (k : positive) : (0 <= q)%Q -> (0 <= q / inject_Z (Zpos k))%Q.
Proof.
  intros Hq. apply Qle_shift_div_l; [reflexivity|]. by rewrite Qmult_0_l.
Qed.

Variable x : Q.
Variable n : positive.
Hypothesis x_nonneg : (0 <= x)%Q.

Lemma c_fmod_unfold :
  c_fmod x (Zpos n) = (x - inject_Z (Zpos n * (Qfloor x / Zpos n)))%Q.
Proof.
  unfold c_fmod.
  rewrite py_int_nonneg by (by apply Qdiv_pos_nonneg).
  by rewrite Qfloor_div_pos, inject_Z_mult.
Qed.

Lemma c_fmod_nonneg : (0 <= c_fmod x (Zpos n))%Q.
Proof.
  rewrite c_fmod_unfold.
  pose proof (Qfloor_le x) as Hfl.
  assert (Hle : (inject_Z (Zpos n * (Qfloor x / Zpos n)) <= inject_Z (Qfloor x))%Q).
  { rewrite <- Zle_Qle. apply Z.mul_div_le. lia. }
  lra.
Qed.

Lemma py_mod_exact : (py_mod x (Zpos n) == c_fmod x (Zpos n))%Q.
Proof.
  unfold py_mod.
  destruct (Qeq_bool (c_fmod x (Z.pos n)) 0) eqn:E.
  - apply Qeq_bool_iff in E. by rewrite E.
  - assert (Hlt : Qltb (c_fmod x (Z.pos n)) 0 = false).
    { apply Qltb_ge, c_fmod_nonneg. }
    rewrite Hlt. reflexivity.
Qed.

Lemma py_mod_nonneg : (0 <= py_mod x (Zpos n))%Q.
Proof. rewrite py_mod_exact. apply c_fmod_nonneg. Qed.

Lemma py_mod_floor : Qfloor (py_mod x (Zpos n)) = (Qfloor x mod Zpos n)%Z.
Proof.
  rewrite (Qfloor_comp _ _ py_mod_exact), c_fmod_unfold, Qfloor_sub_Z.
  by rewrite Z.mod_eq by lia.
Qed.

Hypothesis x_small : (Qfloor x < 2 ^ 53)%Z.

Lemma py_floordiv_exact : py_int (py_floordiv x (Zpos n)) = (Qfloor x / Zpos n)%Z.
Proof.
  pose proof (Qfloor_nonneg x x_nonneg) as Hfl.
  set (k := (Qfloor x / Zpos n)%Z).
  assert (Hk : (0 <= k)%Z) by (apply Z.div_pos; lia).
  assert (Hnk : (Zpos n * k <= Qfloor x)%Z) by (apply Z.mul_div_le; lia).
  assert (Hkn : (k <= Zpos n * k)%Z) by nia.
  unfold py_floordiv.
  assert (Hlt : Qltb (c_fmod x (Z.pos n)) 0 = false) by apply Qltb_ge, c_fmod_nonneg.
  rewrite Hlt. cbn [Z.ltb Z.compare xorb]. rewrite andb_false_r.
  assert (Hsub : (x - c_fmod x (Z.pos n) == inject_Z (Zpos n * k))%Q).
  { rewrite c_fmod_unfold. fold k. ring. }
  assert (Hin : (binary64_round (x - c_fmod x (Z.pos n)) == inject_Z (Zpos n * k))%Q).
  { apply binary64_round_exact; [done|lia]. }
  assert (Hquot : (binary64_round (x - c_fmod x (Z.pos n)) / inject_Z (Z.pos n)
                   == inject_Z k)%Q).
  { rewrite Hin, inject_Z_mult. field. discriminate. }
  rewrite (binary64_round_comp _ _ Hquot).
  assert (HD : (binary64_round (inject_Z k) == inject_Z k)%Q).
  { apply binary64_round_nonneg_Z. lia. }
  destruct (Qeq_bool (binary64_round (inject_Z k)) 0) eqn:E.
  - apply Qeq_bool_iff in E. rewrite HD in E.
    unfold Qeq in E. simpl in E. change (py_int 0) with 0%Z. lia.
  - rewrite (Qfloor_comp _ _ HD), Qfloor_Z.
    assert (Hz : (binary64_round (inject_Z k) - inject_Z k == inject_Z 0)%Q).
    { rewrite HD. ring. }
    rewrite (binary64_round_comp _ _ Hz).
    change (Qltb (1 # 2) (binary64_round (inject_Z 0))) with false.
    apply py_int_inject_Z.
Qed.

End ExactRange.

Section UptimeFields.

Variable seconds : Q.
Hypothesis seconds_nonneg : (0 <= seconds)%Q.
Hypothesis seconds_small : (Qfloor seconds < 2 ^ 53)%Z.

Lemma uptime_days_floor : uptime_days seconds = (Qfloor seconds / 86400)%Z.
Proof. unfold uptime_days. by apply py_floordiv_exact. Qed.

Lemma remainder_small (n : positive) :
  (Zpos n < 2 ^ 53)%Z -> (Qfloor (py_mod seconds (Zpos n)) < 2 ^ 53)%Z.
Proof.
  intros Hn. rewrite py_mod_floor by done.
  pose proof (Z.mod_pos_bound (Qfloor seconds) (Zpos n)). lia.
Qed.

Lemma uptime_hours_floor :
  uptime_hours seconds = ((Qfloor seconds mod 86400) / 3600)%Z.
Proof.
  unfold uptime_hours.
  rewrite py_floordiv_exact; [|by apply py_mod_nonneg|by apply remainder_small].
  by rewrite py_mod_floor.
Qed.

Lemma uptime_minutes_floor :
  uptime_minutes seconds = ((Qfloor seconds mod 3600) / 60)%Z.
Proof.
  unfold uptime_minutes.
  rewrite py_floordiv_exact; [|by apply py_mod_nonneg|by apply remainder_small].
  by rewrite py_mod_floor.
Qed.

Lemma uptime_secs_floor : uptime_secs seconds = (Qfloor seconds mod 60)%Z.
Proof.
  unfold uptime_secs. rewrite py_int_nonneg by (by apply py_mod_nonneg).
  by apply py_mod_floor.
Qed.

(** The four fields are the breakdown of the whole seconds. *)
Lemma uptime_fields_breakdown :
  (uptime_days seconds, uptime_hours seconds, uptime_minutes seconds,
   uptime_secs seconds)
  = breakdown (Qfloor seconds).
Proof.
  unfold breakdown.
  by rewrite uptime_days_floor, uptime_hours_floor, uptime_minutes_floor,
    uptime_secs_floor.
Qed.

End UptimeFields.

(** Numerals and the parser. *)

Lemma str_int_numeral z : (0 <= z)%Z -> str_int z = numeral (Z.to_N z).
Proof. intros Hz. destruct z; [reflexivity|reflexivity|lia]. Qed.

Lemma numeral_nonempty n : exists c rest, numeral n = String c rest.
Proof.
  unfold numeral. destruct n as [|p]; simpl; [by exists "0"%char, EmptyString|].
  pose proof (DecimalPos.Unsigned.to_uint_nonnil p) as Hnn.
  destruct (Pos.to_uint p) as [|u|u|u|u|u|u|u|u|u|u]; [done|simpl; eauto..].
Qed.

Lemma take_digits_uint u after :
  no_leading_digit after ->
  take_digits (NilEmpty.string_of_uint u +:+ after) = (NilEmpty.string_of_uint u, after).
Proof.
  intros Hafter. induction u; simpl; try (by rewrite IHu).
  destruct after as [|c rest]; simpl in *; [done|]. by rewrite Hafter.
Qed.

Lemma parse_last fuel n unit :
  is_digit unit = false ->
  parse_components (S fuel) (numeral n +:+ String unit EmptyString) = Some [(n, unit)].
Proof.
  intros Hu. cbn [parse_components]. unfold numeral.
  rewrite take_digits_uint by done. cbv beta iota zeta.
  destruct (numeral_nonempty n) as (c & rest & E). unfold numeral in E.
  rewrite E, <- E. by rewrite NilEmpty.usu, DecimalN.Unsigned.of_to.
Qed.

Lemma parse_more fuel n unit more :
  is_digit unit = false ->
  parse_components (S fuel) (numeral n +:+ String unit (String " " more))
  = match parse_components fuel more with
    | Some l => Some ((n, unit) :: l)
    | None => None
    end.
Proof.
  intros Hu. cbn [parse_components]. unfold numeral.
  rewrite take_digits_uint by done. cbv beta iota zeta.
  destruct (numeral_nonempty n) as (c & rest & E). unfold numeral in E.
  rewrite E, <- E. by rewrite NilEmpty.usu, DecimalN.Unsigned.of_to.
Qed.

Lemma append_unit_sep (unit : ascii) (rest : string) :
  String unit " " +:+ rest = String unit (String " " rest).
Proof. reflexivity. Qed.

Section Patterns.

Variables d h m s : N.

Lemma parse_pattern_dhms :
  parse_uptime (pattern_dhms d h m s)
  = Some [(d, "d"%char); (h, "h"%char); (m, "m"%char); (s, "s"%char)].
Proof.
  unfold parse_uptime, pattern_dhms. rewrite !append_unit_sep.
  by rewrite !parse_more, parse_last.
Qed.

Lemma parse_pattern_hms :
  parse_uptime (pattern_hms h m s) = Some [(h, "h"%char); (m, "m"%char); (s, "s"%char)].
Proof.
  unfold parse_uptime, pattern_hms. rewrite !append_unit_sep.
  by rewrite !parse_more, parse_last.
Qed.

Lemma parse_pattern_ms :
  parse_uptime (pattern_ms m s) = Some [(m, "m"%char); (s, "s"%char)].
Proof.
  unfold parse_uptime, pattern_ms. rewrite !append_unit_sep.
  by rewrite !parse_more, parse_last.
Qed.

Lemma parse_pattern_s : parse_uptime (pattern_s s) = Some [(s, "s"%char)].
Proof. unfold parse_uptime, pattern_s. by rewrite parse_last. Qed.

End Patterns.

(** A string of a pattern parses into as many components as the
    pattern has, so no string is of two patterns. *)
Lemma matches_arity pat str :
  matches pat str -> option_map length (parse_uptime str) = Some (arity pat).
Proof.
  destruct pat; simpl.
  - intros (d & h & m & s & ->). by rewrite parse_pattern_dhms.
  - intros (h & m & s & ->). by rewrite parse_pattern_hms.
  - intros (m & s & ->). by rewrite parse_pattern_ms.
  - intros (s & ->). by rewrite parse_pattern_s.
Qed.

Lemma matches_unique pat pat' str : matches pat str -> matches pat' str -> pat = pat'.
Proof.
  intros H H'. apply matches_arity in H, H'. rewrite H in H'.
  by destruct pat, pat'.
Qed.

Section Rendering.

Variables days hours minutes secs : Z.
Hypothesis days_nonneg : (0 <= days)%Z.
Hypothesis hours_nonneg : (0 <= hours)%Z.
Hypothesis minutes_nonneg : (0 <= minutes)%Z.
Hypothesis secs_nonneg : (0 <= secs)%Z.

Lemma render_uptime_selects :
  render_uptime days hours minutes secs
  = if (days >? 0)%Z then
      pattern_dhms (Z.to_N days) (Z.to_N hours) (Z.to_N minutes) (Z.to_N secs)
    else if (hours >? 0)%Z then
      pattern_hms (Z.to_N hours) (Z.to_N minutes) (Z.to_N secs)
    else if (minutes >? 0)%Z then
      pattern_ms (Z.to_N minutes) (Z.to_N secs)
    else
      pattern_s (Z.to_N secs).
Proof.
  unfold render_uptime. by rewrite !str_int_numeral.
Qed.

Lemma render_uptime_matches :
  matches (if (days >? 0)%Z then DHMS
           else if (hours >? 0)%Z then HMS
           else if (minutes >? 0)%Z then MS
           else SecondsOnly)
          (render_uptime days hours minutes secs).
Proof.
  rewrite render_uptime_selects.
  destruct (days >? 0)%Z; [by eexists _, _, _, _|].
  destruct (hours >? 0)%Z; [by eexists _, _, _|].
  destruct (minutes >? 0)%Z; [by eexists _, _|].
  by eexists.
Qed.

Lemma render_uptime_reparse :
  reparse (render_uptime days hours minutes secs) = Some (days, hours, minutes, secs).
Proof.
  rewrite render_uptime_selects. unfold reparse.
  destruct (Z.gtb_spec days 0).
  { rewrite parse_pattern_dhms. cbn. by rewrite !Z2N.id. }
  assert (days = 0%Z) as -> by lia.
  destruct (Z.gtb_spec hours 0).
  { rewrite parse_pattern_hms. cbn. by rewrite !Z2N.id. }
  assert (hours = 0%Z) as -> by lia.
  destruct (Z.gtb_spec minutes 0).
  { rewrite parse_pattern_ms. cbn. by rewrite !Z2N.id. }
  assert (minutes = 0%Z) as -> by lia.
  rewrite parse_pattern_s. cbn. by rewrite !Z2N.id.
Qed.

End Rendering.

Example format_uptime_samples :
  map format_uptime [90061; 3661; 61; 5; 0; 86400; 7 # 2]%Q
  = ["1d 1h 1m 1s"; "1h 1m 1s"; "1m 1s"; "5s"; "0s"; "1d 0h 0m 0s"; "3s"].
Proof. reflexivity. Qed.

(** C3, as stated, fails at 1e22 seconds: the quotient of [//] no
    longer fits 53 bits and is rounded, so the day count that is
    rendered and read back is not the one of the integer breakdown. *)
Lemma format_uptime_rounds_at_1e22 :
  (0 <= inject_Z (10 ^ 22))%Q
  /\ format_uptime (inject_Z (10 ^ 22)) = "115740740740740736d 17h 46m 40s"
  /\ breakdown (Qfloor (inject_Z (10 ^ 22))) = (115740740740740740, 17, 46, 40)%Z
  /\ reparse (format_uptime (inject_Z (10 ^ 22)))
     <> Some (breakdown (Qfloor (inject_Z (10 ^ 22)))).
Proof. vm_compute. repeat split; congruence. Qed.

(** C3, amended. For a finite duration [d] with [0 <= d < 2^53], with
    [n] its whole seconds: [format_uptime d] is the first of the four
    patterns whose leading unit is not zero (seconds only when all
    are), filled with the day/hour/minute/second breakdown of [n], zero
    components included; it is of exactly one of the four patterns; and
    reading it back gives the breakdown of [n]. *)
Theorem format_uptime_patterns (seconds : Q) :
  (0 <= seconds)%Q ->
  (seconds < inject_Z (2 ^ 53))%Q ->
  let n := Qfloor seconds in
  let d := (n / 86400)%Z in
  let h := ((n mod 86400) / 3600)%Z in
  let m := ((n mod 3600) / 60)%Z in
  let s := (n mod 60)%Z in
  format_uptime seconds
  = (if (d >? 0)%Z then pattern_dhms (Z.to_N d) (Z.to_N h) (Z.to_N m) (Z.to_N s)
     else if (h >? 0)%Z then pattern_hms (Z.to_N h) (Z.to_N m) (Z.to_N s)
     else if (m >? 0)%Z then pattern_ms (Z.to_N m) (Z.to_N s)
     else pattern_s (Z.to_N s))
  /\ (exists pat, matches pat (format_uptime seconds)
                  /\ forall pat', matches pat' (format_uptime seconds) -> pat' = pat)
  /\ reparse (format_uptime seconds) = Some (d, h, m, s)
  /\ breakdown n = (d, h, m, s).
Proof.
  intros Hnonneg Hsmall n d h m s.
  pose proof (Qfloor_nonneg seconds Hnonneg) as Hn. fold n in Hn.
  assert (Hn53 : (Qfloor seconds < 2 ^ 53)%Z).
  { rewrite Zlt_Qlt. pose proof (Qfloor_le seconds). lra. }
  assert (Hd : (0 <= d)%Z) by (apply Z.div_pos; lia).
  assert (Hh : (0 <= h)%Z).
  { apply Z.div_pos; [|lia]. apply Z.mod_pos_bound. lia. }
  assert (Hm : (0 <= m)%Z).
  { apply Z.div_pos; [|lia]. apply Z.mod_pos_bound. lia. }
  assert (Hs : (0 <= s)%Z) by (apply Z.mod_pos_bound; lia).
  unfold format_uptime.
  rewrite uptime_days_floor, uptime_hours_floor, uptime_minutes_floor, uptime_secs_floor
    by done.
  fold n. fold d h m s.
  split; [by apply render_uptime_selects|]. split; [|split].
  - eexists. split; [by apply render_uptime_matches|].
    intros pat' H'. eapply matches_unique; [exact H'|by apply render_uptime_matches].
  - by apply render_uptime_reparse.
  - reflexivity.
Qed.

Lemma format_uptime_patterns_witness :
  format_uptime (180123 # 2) = "1d 1h 1m 1s"
  /\ (exists pat, matches pat (format_uptime (180123 # 2))
                  /\ forall pat', matches pat' (format_uptime (180123 # 2)) -> pat' = pat)
  /\ reparse (format_uptime (180123 # 2)) = Some (1, 1, 1, 1)%Z
  /\ breakdown 90061 = (1, 1, 1, 1)%Z.
Proof.
  apply (format_uptime_patterns (180123 # 2)); [unfold Qle|unfold Qlt]; simpl; lia.
Defined.

(** * Further properties of the service *)

(** ** What one request does to the state *)

Lemma route_effect c e w :
  REQUEST_LATENCY (fst (route c e w)) = REQUEST_LATENCY w
  /\ (REQUEST_COUNT (fst (route c e w)) = REQUEST_COUNT w
      \/ exists status,
           REQUEST_COUNT (fst (route c e w))
           = counter_inc (call_method c, call_path c, status) (REQUEST_COUNT w)).
Proof.
  destruct c as [| | |[mode|] p]; simpl.
  - by split; [|left].
  - destruct (chaos_triggers (CHAOS_MODE w) (draw e)) eqn:E.
    + rewrite health_check_fails by done. split; [done|]. right. by exists 503%Z.
    + rewrite health_check_passes by done. by split; [|left].
  - by split; [|left].
  - destruct (String.eqb_spec mode "immediate") as [->|Hi].
    { split; [done|]. right. by exists 500%Z. }
    destruct (String.eqb_spec mode "degraded") as [->|Hd]; [by split; [|left]|].
    destruct (String.eqb_spec mode "reset") as [->|Hr]; [by split; [|left]|].
    rewrite simulate_crash_unknown by done. by split; [|left].
  - split; [done|]. right. by exists 500%Z.
Qed.

Lemma serve_through c e w :
  exists status,
    fst (serve c e w)
    = recorded (call_method c) (call_path c) status (t_end e - t_start e)%Q
        (fst (route c e w)).
Proof.
  destruct c as [| | |[mode|] p].
  - by eexists.
  - destruct (chaos_triggers (CHAOS_MODE w) (draw e)) eqn:E.
    + rewrite serve_health_fails by done. simpl. rewrite health_check_fails by done.
      by eexists.
    + rewrite serve_health_passes by done. simpl. rewrite health_check_passes by done.
      by eexists.
  - by eexists.
  - destruct (String.eqb_spec mode "immediate") as [->|Hi]; [by eexists|].
    destruct (String.eqb_spec mode "degraded") as [->|Hd].
    { rewrite serve_degraded. by eexists. }
    destruct (String.eqb_spec mode "reset") as [->|Hr]; [by eexists|].
    rewrite serve_unknown by done. simpl. rewrite simulate_crash_unknown by done.
    by eexists.
  - by eexists.
Qed.

Lemma counter_inc_lookup_le (key key' : string * string * Z) (m : counter_family) :
  (default 0 (m !! key') <= default 0 (counter_inc key m !! key'))%N.
Proof.
  destruct (decide (key = key')) as [->|Hne].
  - rewrite counter_inc_same. lia.
  - by rewrite counter_inc_other.
Qed.

Lemma serve_step_totals c e w :
  total_observations (fst (serve c e w)) = S (total_observations w)
  /\ (total_requests w + 1 <= total_requests (fst (serve c e w))
      <= total_requests w + 2)%N.
Proof.
  destruct (serve_through c e w) as [st ->].
  destruct (recorded_totals (call_method c) (call_path c) st
              (t_end e - t_start e)%Q (fst (route c e w))) as [-> ->].
  destruct (route_effect c e w) as [Hlat Hcount].
  unfold total_observations, total_requests. rewrite Hlat. split; [done|].
  destruct Hcount as [->|[status ->]]; [lia|].
  rewrite counter_total_inc. lia.
Qed.

Lemma serve_step_monotone c e w method endpoint status :
  (request_count w method endpoint status
   <= request_count (fst (serve c e w)) method endpoint status)%N
  /\ exists newer,
       default [] (REQUEST_LATENCY (fst (serve c e w)) !! (method, endpoint))
       = (newer ++ default [] (REQUEST_LATENCY w !! (method, endpoint)))%list.
Proof.
  destruct (serve_through c e w) as [st0 ->].
  destruct (route_effect c e w) as [Hlat Hcount].
  unfold recorded, request_count. simpl. split.
  - etrans; [|apply counter_inc_lookup_le].
    destruct Hcount as [->|[st ->]]; [done|apply counter_inc_lookup_le].
  - rewrite Hlat. unfold histogram_observe.
    destruct (decide ((call_method c, call_path c) = (method, endpoint))) as [->|Hne].
    + rewrite lookup_insert_eq. simpl. by eexists [_].
    + rewrite lookup_insert_ne by done. by exists [].
Qed.

(** ** Answers *)

Lemma stored_probability_finite p :
  p <> NaN -> is_finite (py_min (py_max p (Finite 0)) (Finite 1)) = true.
Proof.
  destruct p as [q| | |]; try done. intros _. unfold py_min, py_max. simpl.
  destruct (Qltb q 0); simpl; [done|]. by destruct (Qltb 1 q).
Qed.

Lemma serve_degraded_outcome p e w :
  snd (serve (PostSimulateCrash (Some "degraded") p) e w)
  = if is_finite (py_min (py_max (default (Finite 1) p) (Finite 0)) (Finite 1))
    then Return
           {| status_code := 200;
              content := JSON (JObj
                [("status", JStr "chaos_enabled");
                 ("mode", JStr "degraded");
                 ("failure_probability",
                  JNum (py_min (py_max (default (Finite 1) p) (Finite 0)) (Finite 1)));
                 ("message",
                  JFmt "Health endpoint will fail "
                    (float_scale
                       (py_min (py_max (default (Finite 1) p) (Finite 0)) (Finite 1)) 100)
                    "% of the time")]) |}
    else Raise (OtherException "ValueError").
Proof.
  unfold serve, instrument_requests, call_next, route.
  change (default "immediate" (Some "degraded")) with "degraded".
  rewrite simulate_crash_degraded.
  generalize (py_min (py_max (default (Finite 1) p) (Finite 0)) (Finite 1)).
  by intros [q| | |].
Qed.

(** X1. For requests whose query parameters pass validation: every
    request to one of the four endpoints is answered with a response,
    with status 200 from the info and metrics endpoints, 200 or 503
    from the health check, and 500, 200 or 400 from the chaos endpoint
    according to the mode; the one exception is a degraded call with
    [probability=nan], whose confirmation cannot be rendered as JSON:
    it ends in [ValueError] and is counted under status 500. *)
Theorem serve_status_codes c e w :
  if sends_nan c then
    snd (serve c e w) = Raise (OtherException "ValueError")
    /\ request_count (fst (serve c e w)) "POST" "/simulate-crash" 500
       = (request_count w "POST" "/simulate-crash" 500 + 1)%N
    /\ request_count (fst (serve c e w)) "POST" "/simulate-crash" 200
       = request_count w "POST" "/simulate-crash" 200
  else
    exists r,
      snd (serve c e w) = Return r
      /\ status_code r
         = match c with
           | GetRoot | GetMetrics => 200
           | GetHealth => if chaos_triggers (CHAOS_MODE w) (draw e) then 503 else 200
           | PostSimulateCrash mode _ =>
               let mode := default "immediate" mode in
               if String.eqb mode "immediate" then 500
               else if String.eqb mode "degraded" || String.eqb mode "reset" then 200
               else 400
           end%Z.
Proof.
  destruct c as [| | |[mode|] p].
  - by eexists.
  - simpl sends_nan.
    destruct (chaos_triggers (CHAOS_MODE w) (draw e)) eqn:E.
    + rewrite serve_health_fails by done. by eexists.
    + rewrite serve_health_passes by done. by eexists.
  - by eexists.
  - destruct (String.eqb_spec mode "degraded") as [->|Hd].
    + destruct p as [[q| | |]|]; simpl;
        try (rewrite serve_degraded_outcome, stored_probability_finite by done;
             by eexists);
        try (by eexists).
      split; [done|]. unfold request_count, recorded. simpl.
      split; [apply counter_inc_same|by rewrite counter_inc_other].
    + assert (Hsend : sends_nan (PostSimulateCrash (Some mode) p) = false).
      { simpl. destruct p as [[q| | |]|]; try done. by apply String.eqb_neq. }
      rewrite Hsend. simpl.
      destruct (String.eqb_spec mode "immediate") as [->|Hi]; [by eexists|].
      apply String.eqb_neq in Hd as Hd'. rewrite Hd'. simpl.
      destruct (String.eqb_spec mode "reset") as [->|Hr]; [by eexists|].
      rewrite serve_unknown by done. by eexists.
  - by eexists.
Qed.

(** ** The middleware on its own *)

(** X2. When the stage below returns a response or raises an
    [Exception], the middleware hands that outcome on untouched and adds
    to the state that stage left exactly one count, under the request's
    method and path and the response's status (500 for an exception),
    and exactly one latency observation, [t_end - t_start] under the
    request's method and path; it writes nothing else. *)
Theorem middleware_records_once method endpoint t0 t1 (next : M Response) w :
  match snd (next w) with
  | Return _ => True
  | Raise e => is_Exception e = true
  end ->
  let w1 := fst (next w) in
  let w' := fst (instrument_requests method endpoint t0 t1 next w) in
  let status :=
    match snd (next w) with
    | Return response => status_code response
    | Raise _ => 500%Z
    end in
  snd (instrument_requests method endpoint t0 t1 next w) = snd (next w)
  /\ total_requests w' = (total_requests w1 + 1)%N
  /\ request_count w' method endpoint status
     = (request_count w1 method endpoint status + 1)%N
  /\ total_observations w' = S (total_observations w1)
  /\ REQUEST_LATENCY w' !! (method, endpoint)
     = Some ((t1 - t0)%Q :: default [] (REQUEST_LATENCY w1 !! (method, endpoint)))
  /\ CHAOS_MODE w' = CHAOS_MODE w1
  /\ UPTIME_GAUGE w' = UPTIME_GAUGE w1
  /\ START_TIME w' = START_TIME w1.
Proof.
  unfold instrument_requests. destruct (next w) as [w1 [r|ex]]; simpl; intros Hex.
  - destruct (recorded_totals method endpoint (status_code r) (t1 - t0)%Q w1) as [Hc Ho].
    unfold recorded in Hc, Ho. rewrite Hc, Ho.
    repeat split.
    + apply counter_inc_same.
    + unfold histogram_observe. simpl. by rewrite lookup_insert_eq.
  - rewrite Hex. simpl.
    destruct (recorded_totals method endpoint 500 (t1 - t0)%Q w1) as [Hc Ho].
    unfold recorded in Hc, Ho. rewrite Hc, Ho.
    repeat split.
    + apply counter_inc_same.
    + unfold histogram_observe. simpl. by rewrite lookup_insert_eq.
Qed.

Lemma middleware_records_once_witness :
  let w := initial_world 0 in
  let w' := fst (instrument_requests "GET" "/" 1 3 failing_stage w) in
  snd (instrument_requests "GET" "/" 1 3 failing_stage w)
  = Raise (OtherException "RuntimeError")
  /\ total_requests w' = (total_requests w + 1)%N
  /\ request_count w' "GET" "/" 500 = (request_count w "GET" "/" 500 + 1)%N
  /\ total_observations w' = S (total_observations w)
  /\ REQUEST_LATENCY w' !! ("GET", "/")
     = Some ((3 - 1)%Q :: default [] (REQUEST_LATENCY w !! ("GET", "/")))
  /\ CHAOS_MODE w' = CHAOS_MODE w
  /\ UPTIME_GAUGE w' = UPTIME_GAUGE w
  /\ START_TIME w' = START_TIME w.
Proof.
  apply (middleware_records_once "GET" "/" 1 3 failing_stage (initial_world 0)).
  reflexivity.
Defined.

(** ** Metrics across requests *)

(** X3. A scrape shows the registry as it was before the scrape itself
    was recorded, with the uptime gauge just set: the count and the
    latency of a scrape appear in the next one. *)
Theorem consecutive_scrapes e1 e2 w :
  snd (serve GetMetrics e1 w)
  = Return {| status_code := 200;
              content := Exposition (REQUEST_COUNT w) (REQUEST_LATENCY w)
                           (t_handler e1 - START_TIME w)%Q |}
  /\ snd (serve GetMetrics e2 (fst (serve GetMetrics e1 w)))
     = Return {| status_code := 200;
                 content := Exposition
                   (counter_inc ("GET", "/metrics", 200%Z) (REQUEST_COUNT w))
                   (histogram_observe ("GET", "/metrics") (t_end e1 - t_start e1)%Q
                      (REQUEST_LATENCY w))
                   (t_handler e2 - START_TIME w)%Q |}.
Proof. split; reflexivity. Qed.



(** X5. Over any sequence of requests no counter goes down and no
    latency observation is dropped: each histogram child keeps what it
    held, newer observations in front. *)
Theorem counters_never_decrease (reqs : list (Call * Env)) w method endpoint status :
  (request_count w method endpoint status
   <= request_count (fst (serve_all reqs w)) method endpoint status)%N
  /\ exists newer,
       default [] (REQUEST_LATENCY (fst (serve_all reqs w)) !! (method, endpoint))
       = (newer ++ default [] (REQUEST_LATENCY w !! (method, endpoint)))%list.
Proof.
  revert w. induction reqs as [|[c e] rest IH]; intros w; simpl.
  - split; [lia|]. by exists [].
  - destruct (serve_step_monotone c e w method endpoint status) as [Hc [n1 Hl]].
    destruct (serve c e w) as [w1 r]. simpl in *.
    destruct (IH w1) as [Hc' [n2 Hl']].
    destruct (serve_all rest w1) as [w2 rs]. simpl in *.
    split; [lia|]. exists (n2 ++ n1)%list. by rewrite Hl', Hl, app_assoc.
Qed.

(** X6. After [n] requests the histogram holds exactly [n] more
    observations, the request counter has grown by at least [n] and at
    most [2 n], and the callers have got [n] outcomes. *)
Theorem sequence_totals (reqs : list (Call * Env)) w :
  total_observations (fst (serve_all reqs w))
  = (total_observations w + length reqs)%nat
  /\ (total_requests w + N.of_nat (length reqs)
      <= total_requests (fst (serve_all reqs w))
      <= total_requests w + 2 * N.of_nat (length reqs))%N
  /\ length (snd (serve_all reqs w)) = length reqs.
Proof.
  revert w. induction reqs as [|[c e] rest IH]; intros w; simpl.
  - repeat split; lia.
  - destruct (serve_step_totals c e w) as [Ho Hc].
    destruct (serve c e w) as [w1 r]. simpl in *.
    destruct (IH w1) as (Ho' & Hc' & Hlen).
    destruct (serve_all rest w1) as [w2 rs]. simpl in *.
    repeat split; lia.
Qed.

(** ** Start time and uptime gauge *)

Lemma serve_all_start_time (reqs : list (Call * Env)) w :
  START_TIME (fst (serve_all reqs w)) = START_TIME w.
Proof.
  revert w. induction reqs as [|[c e] rest IH]; intros w; simpl; [done|].
  pose proof (serve_start_time c e w) as H1.
  destruct (serve c e w) as [w1 r]. simpl in *.
  pose proof (IH w1) as H2.
  destruct (serve_all rest w1) as [w2 rs]. simpl in *. congruence.
Qed.

(** X7. No request writes the start time, so after any history a
    health check that passes reports the time elapsed since the
    original start, rounded in [uptime] and formatted in
    [uptime_formatted]. *)
Theorem uptime_measured_from_start (reqs : list (Call * Env)) w e :
  let w' := fst (serve_all reqs w) in
  START_TIME w' = START_TIME w
  /\ (chaos_triggers (CHAOS_MODE w') (draw e) = false ->
      snd (serve GetHealth e w')
      = Return {| status_code := 200;
                  content := JSON (JObj
                    [("status", JStr "healthy");
                     ("uptime", JNum (Finite (py_round2 (t_handler e - START_TIME w)%Q)));
                     ("uptime_formatted",
                      JStr (format_uptime (t_handler e - START_TIME w)%Q));
                     ("chaos_mode", JBool (enabled (CHAOS_MODE w')))]) |}).
Proof.
  intros w'. split; [apply serve_all_start_time|].
  intros H. rewrite serve_health_passes by done. unfold w'.
  by rewrite serve_all_start_time.
Qed.

Lemma uptime_measured_from_start_witness :
  let reqs := [(PostSimulateCrash None None, sample_env); (GetMetrics, sample_env)] in
  let e := {| t_start := 3661; t_handler := 3662; t_end := 3663; draw := 0 |} in
  let w' := fst (serve_all reqs (initial_world 1)) in
  START_TIME w' = 1%Q
  /\ snd (serve GetHealth e w')
     = Return {| status_code := 200;
                 content := JSON (JObj
                   [("status", JStr "healthy");
                    ("uptime", JNum (Finite (py_round2 (3662 - 1))));
                    ("uptime_formatted", JStr (format_uptime (3662 - 1)));
                    ("chaos_mode", JBool false)]) |}.
Proof.
  intros reqs e w'.
  destruct (uptime_measured_from_start reqs (initial_world 1) e) as [Hs Hh].
  split; [exact Hs|]. apply Hh. reflexivity.
Defined.

(** X8. The uptime gauge is written by the health check, also when the
    check fails, and by the metrics endpoint, with the time elapsed
    since the start; the info and chaos endpoints leave it alone. *)
Theorem gauge_written_by_health_and_metrics c e w :
  UPTIME_GAUGE (fst (serve c e w))
  = match c with
    | GetHealth | GetMetrics => (t_handler e - START_TIME w)%Q
    | GetRoot | PostSimulateCrash _ _ => UPTIME_GAUGE w
    end.
Proof.
  destruct c as [| | |[mode|] p]; try reflexivity.
  - destruct (chaos_triggers (CHAOS_MODE w) (draw e)) eqn:E.
    + by rewrite serve_health_fails.
    + by rewrite serve_health_passes.
  - destruct (String.eqb_spec mode "immediate") as [->|Hi]; [done|].
    destruct (String.eqb_spec mode "degraded") as [->|Hd]; [by rewrite serve_degraded|].
    destruct (String.eqb_spec mode "reset") as [->|Hr]; [done|].
    by rewrite serve_unknown.
Qed.

(** ** More on [format_uptime] *)

Lemma below_2_53 (seconds : Q) :
  (seconds < inject_Z (2 ^ 53))%Q -> (Qfloor seconds < 2 ^ 53)%Z.
Proof. intros H. rewrite Zlt_Qlt. pose proof (Qfloor_le seconds). lra. Qed.

(** X9. For a duration [0 <= d < 2^53], [format_uptime] looks at the
    whole seconds only: the fraction of a second is dropped, never
    rounded up. *)
Theorem format_uptime_whole_seconds (seconds : Q) :
  (0 <= seconds)%Q ->
  (seconds < inject_Z (2 ^ 53))%Q ->
  format_uptime seconds = format_uptime (inject_Z (Qfloor seconds)).
Proof.
  intros Hnn Hsmall.
  pose proof (below_2_53 seconds Hsmall) as Hfl.
  pose proof (Qfloor_nonneg seconds Hnn) as Hfl0.
  assert (Hnn' : (0 <= inject_Z (Qfloor seconds))%Q).
  { change 0%Q with (inject_Z 0). by rewrite <- Zle_Qle. }
  unfold format_uptime.
  rewrite (uptime_days_floor seconds), (uptime_hours_floor seconds),
    (uptime_minutes_floor seconds), (uptime_secs_floor seconds) by done.
  rewrite uptime_days_floor, uptime_hours_floor, uptime_minutes_floor,
    uptime_secs_floor by (by rewrite ?Qfloor_Z).
  by rewrite Qfloor_Z.
Qed.

Lemma format_uptime_whole_seconds_witness :
  format_uptime (7323999 # 1000) = format_uptime (inject_Z (Qfloor (7323999 # 1000))).
Proof.
  apply (format_uptime_whole_seconds (7323999 # 1000)); [unfold Qle|unfold Qlt]; simpl; lia.
Defined.

(** X10. For a duration [0 <= d < 2^53] the day count is not negative,
    the hours, minutes and seconds fields are within 0..23, 0..59 and
    0..59, and the four fields add up to the whole seconds of the
    duration. *)
Theorem uptime_fields_recompose (seconds : Q) :
  (0 <= seconds)%Q ->
  (seconds < inject_Z (2 ^ 53))%Q ->
  (0 <= uptime_days seconds)%Z
  /\ (0 <= uptime_hours seconds < 24)%Z
  /\ (0 <= uptime_minutes seconds < 60)%Z
  /\ (0 <= uptime_secs seconds < 60)%Z
  /\ (86400 * uptime_days seconds + 3600 * uptime_hours seconds
      + 60 * uptime_minutes seconds + uptime_secs seconds
      = Qfloor seconds)%Z.
Proof.
  intros Hnn Hsmall.
  pose proof (below_2_53 seconds Hsmall) as Hfl.
  pose proof (Qfloor_nonneg seconds Hnn) as Hfl0.
  rewrite uptime_days_floor, uptime_hours_floor, uptime_minutes_floor, uptime_secs_floor
    by done.
  revert Hfl0. generalize (Qfloor seconds). intros n Hn.
  repeat split; Z.to_euclidean_division_equations; lia.
Qed.

Lemma uptime_fields_recompose_witness :
  (0 <= uptime_days (180123 # 2))%Z
  /\ (0 <= uptime_hours (180123 # 2) < 24)%Z
  /\ (0 <= uptime_minutes (180123 # 2) < 60)%Z
  /\ (0 <= uptime_secs (180123 # 2) < 60)%Z
  /\ (86400 * uptime_days (180123 # 2) + 3600 * uptime_hours (180123 # 2)
      + 60 * uptime_minutes (180123 # 2) + uptime_secs (180123 # 2)
      = Qfloor (180123 # 2))%Z.
Proof.
  apply (uptime_fields_recompose (180123 # 2)); [unfold Qle|unfold Qlt]; simpl; lia.
Defined.

(** Outside that range the float operators round.  A tiny negative
    duration is taken to the divisor itself by [%], and the fields
    leave their ranges. *)
Example tiny_negative_duration :
  format_uptime (- (1 # 10 ^ 20)) = "24h 60m 60s"
  /\ format_uptime (- (1 # 10 ^ 12)) = "24h 59m 59s"
  /\ format_uptime (-1) = "23h 59m 59s".
Proof. vm_compute. by repeat split. Qed.

(** Negative whole seconds: here too no step rounds. *)
Section NegativeWholeSeconds.

Variable z : Z.
Variable n : positive.
Hypothesis z_negative : (z < 0)%Z.
Hypothesis z_small : (- 2 ^ 53 < z)%Z.
Hypothesis n_small : (Zpos n < 2 ^ 53)%Z.

Lemma c_fmod_Z : (c_fmod (inject_Z z) (Zpos n) == inject_Z (Z.rem z (Zpos n)))%Q.
Proof.
  unfold c_fmod.
  assert (Hq : py_int (inject_Z z / inject_Z (Zpos n)) = Z.quot z (Zpos n)).
  { unfold py_int, Qdiv, Qmult, Qinv. simpl. by rewrite Z.mul_1_r. }
  rewrite Hq, <- inject_Z_mult. unfold Qminus.
  rewrite <- inject_Z_opp, <- inject_Z_plus.
  rewrite (Z.rem_eq z (Zpos n)) by lia. reflexivity.
Qed.

Lemma rem_facts :
  (Z.rem z (Zpos n) <= 0)%Z
  /\ (- Zpos n < Z.rem z (Zpos n))%Z
  /\ (z mod Zpos n = if (Z.rem z (Zpos n) =? 0)%Z then 0 else Z.rem z (Zpos n) + Zpos n)%Z
  /\ (z / Zpos n = if (Z.rem z (Zpos n) =? 0)%Z then Z.quot z (Zpos n)
                   else Z.quot z (Zpos n) - 1)%Z
  /\ (z <= z / Zpos n < 0)%Z
  /\ (z <= Z.quot z (Zpos n) <= 0)%Z.
Proof.
  pose proof (Z.quot_rem' z (Zpos n)) as Hqr.
  pose proof (Z.rem_bound_pos_neg z (Zpos n) ltac:(lia) ltac:(lia)) as [Hr1 Hr2].
  set (q := Z.quot z (Zpos n)) in *. set (r := Z.rem z (Zpos n)) in *.
  assert (Hq0 : (q <= 0)%Z) by nia.
  assert (Hqz : (z <= q)%Z) by nia.
  assert (Hnq : (Zpos n * q <= q)%Z) by nia.
  assert (Hdm : (z / Zpos n = (if r =? 0 then q else q - 1)
                 /\ z mod Zpos n = (if r =? 0 then 0 else r + Zpos n))%Z).
  { destruct (Z.eqb_spec r 0) as [E|E].
    - split; symmetry;
        [apply (Z.div_unique_pos z (Zpos n) q 0)
        |apply (Z.mod_unique_pos z (Zpos n) q 0)]; lia.
    - split; symmetry;
        [apply (Z.div_unique_pos z (Zpos n) (q - 1) (r + Zpos n))
        |apply (Z.mod_unique_pos z (Zpos n) (q - 1) (r + Zpos n))]; lia. }
  destruct Hdm as [Hd Hm].
  repeat split; try lia.
  - rewrite Hd. destruct (Z.eqb_spec r 0); lia.
  - rewrite Hd. destruct (Z.eqb_spec r 0); lia.
Qed.

Lemma py_mod_Z : (py_mod (inject_Z z) (Zpos n) == inject_Z (z mod Zpos n))%Q.
Proof.
  destruct rem_facts as (Hr0 & Hrn & Hmod & _).
  unfold py_mod. rewrite Hmod.
  destruct (Qeq_bool (c_fmod (inject_Z z) (Z.pos n)) 0) eqn:E.
  - apply Qeq_bool_iff in E. rewrite c_fmod_Z in E.
    assert (Z.rem z (Z.pos n) = 0%Z) as -> by (unfold Qeq in E; simpl in E; lia).
    reflexivity.
  - assert (Hne : Z.rem z (Z.pos n) <> 0%Z).
    { intros H0. rewrite <- not_true_iff_false in E. apply E, Qeq_bool_iff.
      by rewrite c_fmod_Z, H0. }
    apply Z.eqb_neq in Hne as Hne'. rewrite Hne'.
    assert (Hlt : Qltb (c_fmod (inject_Z z) (Z.pos n)) 0 = true).
    { apply Qltb_lt. rewrite c_fmod_Z. change 0%Q with (inject_Z 0).
      rewrite <- Zlt_Qlt. lia. }
    rewrite Hlt. cbn [Z.ltb Z.compare xorb].
    apply binary64_round_exact; [|lia].
    by rewrite c_fmod_Z, inject_Z_plus.
Qed.

Lemma py_floordiv_Z : py_int (py_floordiv (inject_Z z) (Zpos n)) = (z / Zpos n)%Z.
Proof.
  destruct rem_facts as (Hr0 & Hrn & _ & Hdiv & Hfl & Hquot).
  unfold py_floordiv.
  assert (Hsub : (inject_Z z - c_fmod (inject_Z z) (Z.pos n)
                  == inject_Z (Zpos n * Z.quot z (Zpos n)))%Q).
  { rewrite c_fmod_Z, (Z.rem_eq z (Zpos n)) by lia.
    unfold Qminus. by rewrite <- inject_Z_opp, <- inject_Z_plus, Z.add_opp_r,
      Z.sub_sub_distr, Z.sub_diag. }
  assert (Hin : (binary64_round (inject_Z z - c_fmod (inject_Z z) (Z.pos n))
                 == inject_Z (Zpos n * Z.quot z (Zpos n)))%Q).
  { apply binary64_round_exact; [done|]. pose proof (Z.quot_rem' z (Zpos n)). lia. }
  assert (Hq : (binary64_round (inject_Z z - c_fmod (inject_Z z) (Z.pos n))
                / inject_Z (Z.pos n) == inject_Z (Z.quot z (Zpos n)))%Q).
  { rewrite Hin, inject_Z_mult. field. discriminate. }
  rewrite (binary64_round_comp _ _ Hq).
  assert (HD : (binary64_round (inject_Z (Z.quot z (Zpos n)))
                == inject_Z (Z.quot z (Zpos n)))%Q).
  { apply binary64_round_exact; [done|lia]. }
  assert (Hdiv' : exists D,
             (D == inject_Z (z / Zpos n))%Q
             /\ (if negb (Qeq_bool (c_fmod (inject_Z z) (Z.pos n)) 0)
                    && xorb (Z.pos n <? 0)%Z (Qltb (c_fmod (inject_Z z) (Z.pos n)) 0)
                 then binary64_round (binary64_round (inject_Z (Z.quot z (Zpos n))) - 1)
                 else binary64_round (inject_Z (Z.quot z (Zpos n)))) = D).
  { rewrite Hdiv. eexists. split; [|reflexivity].
    destruct (Z.eqb_spec (Z.rem z (Z.pos n)) 0) as [E0|E0].
    - assert (Heq : Qeq_bool (c_fmod (inject_Z z) (Z.pos n)) 0 = true).
      { apply Qeq_bool_iff. by rewrite c_fmod_Z, E0. }
      by rewrite Heq.
    - assert (Hneq : Qeq_bool (c_fmod (inject_Z z) (Z.pos n)) 0 = false).
      { apply not_true_iff_false. intros H. apply Qeq_bool_iff in H.
        rewrite c_fmod_Z in H. unfold Qeq in H. simpl in H. lia. }
      assert (Hlt : Qltb (c_fmod (inject_Z z) (Z.pos n)) 0 = true).
      { apply Qltb_lt. rewrite c_fmod_Z. change 0%Q with (inject_Z 0).
        rewrite <- Zlt_Qlt. lia. }
      rewrite Hneq, Hlt. cbn [negb andb Z.ltb Z.compare xorb].
      apply binary64_round_exact; [|rewrite Hdiv in Hfl; lia].
      rewrite HD. unfold Qminus. change (- (1))%Q with (inject_Z (-1)).
      by rewrite <- inject_Z_plus. }
  destruct Hdiv' as (D & HDv & ->).
  assert (Hnz : Qeq_bool D 0 = false).
  { apply not_true_iff_false. intros H. apply Qeq_bool_iff in H. rewrite HDv in H.
    unfold Qeq in H. simpl in H. lia. }
  rewrite Hnz, (Qfloor_comp _ _ HDv), Qfloor_Z.
  assert (Hz : (D - inject_Z (z / Z.pos n) == inject_Z 0)%Q) by (rewrite HDv; ring).
  rewrite (binary64_round_comp _ _ Hz).
  change (Qltb (1 # 2) (binary64_round (inject_Z 0))) with false.
  apply py_int_inject_Z.
Qed.

End NegativeWholeSeconds.

Lemma render_uptime_no_days days days' hours minutes secs :
  (days <= 0)%Z -> (days' <= 0)%Z ->
  render_uptime days hours minutes secs = render_uptime days' hours minutes secs.
Proof.
  intros H H'. unfold render_uptime.
  destruct (Z.gtb_spec days 0); [lia|]. by destruct (Z.gtb_spec days' 0); [lia|].
Qed.

(** X11. For a negative whole number of seconds above -2^53 the day
    count is negative, which the [days > 0] test discards: the result
    is the format of the duration modulo one day, in a pattern without
    days. *)
Theorem negative_duration_wraps (z : Z) :
  (- 2 ^ 53 < z < 0)%Z ->
  (uptime_days (inject_Z z) < 0)%Z
  /\ format_uptime (inject_Z z) = format_uptime (py_mod (inject_Z z) 86400)
  /\ exists pat, pat <> DHMS /\ matches pat (format_uptime (inject_Z z)).
Proof.
  intros [Hlo Hneg].
  pose proof (py_mod_Z z 86400 Hneg ltac:(lia)) as Hday.
  pose proof (py_mod_Z z 3600 Hneg ltac:(lia)) as Hhour.
  pose proof (py_mod_Z z 60 Hneg ltac:(lia)) as Hmin.
  assert (Hdays : uptime_days (inject_Z z) = (z / 86400)%Z).
  { unfold uptime_days. apply py_floordiv_Z; lia. }
  assert (Hhours : uptime_hours (inject_Z z) = ((z mod 86400) / 3600)%Z).
  { unfold uptime_hours.
    rewrite py_floordiv_exact.
    - by rewrite (Qfloor_comp _ _ Hday), Qfloor_Z.
    - rewrite Hday. change 0%Q with (inject_Z 0). rewrite <- Zle_Qle.
      apply Z.mod_pos_bound. lia.
    - rewrite (Qfloor_comp _ _ Hday), Qfloor_Z.
      pose proof (Z.mod_pos_bound z 86400). lia. }
  assert (Hminutes : uptime_minutes (inject_Z z) = ((z mod 3600) / 60)%Z).
  { unfold uptime_minutes.
    rewrite py_floordiv_exact.
    - by rewrite (Qfloor_comp _ _ Hhour), Qfloor_Z.
    - rewrite Hhour. change 0%Q with (inject_Z 0). rewrite <- Zle_Qle.
      apply Z.mod_pos_bound. lia.
    - rewrite (Qfloor_comp _ _ Hhour), Qfloor_Z.
      pose proof (Z.mod_pos_bound z 3600). lia. }
  assert (Hsecs : uptime_secs (inject_Z z) = (z mod 60)%Z).
  { unfold uptime_secs. rewrite py_int_nonneg.
    - by rewrite (Qfloor_comp _ _ Hmin), Qfloor_Z.
    - rewrite Hmin. change 0%Q with (inject_Z 0). rewrite <- Zle_Qle.
      apply Z.mod_pos_bound. lia. }
  assert (Hd : (z / 86400 < 0)%Z) by (Z.to_euclidean_division_equations; lia).
  assert (Hy0 : (0 <= py_mod (inject_Z z) 86400)%Q).
  { rewrite Hday. change 0%Q with (inject_Z 0). rewrite <- Zle_Qle.
    apply Z.mod_pos_bound. lia. }
  assert (Hyfl : Qfloor (py_mod (inject_Z z) 86400) = (z mod 86400)%Z).
  { by rewrite (Qfloor_comp _ _ Hday), Qfloor_Z. }
  assert (Hy53 : (Qfloor (py_mod (inject_Z z) 86400) < 2 ^ 53)%Z).
  { rewrite Hyfl. pose proof (Z.mod_pos_bound z 86400). lia. }
  split; [by rewrite Hdays|]. split.
  - unfold format_uptime.
    rewrite Hdays, Hhours, Hminutes, Hsecs.
    rewrite (uptime_days_floor (py_mod _ _)), (uptime_hours_floor (py_mod _ _)),
      (uptime_minutes_floor (py_mod _ _)), (uptime_secs_floor (py_mod _ _)) by done.
    rewrite Hyfl.
    assert (E1 : ((z mod 86400) mod 86400 / 3600 = z mod 86400 / 3600)%Z)
      by (Z.to_euclidean_division_equations; lia).
    assert (E2 : ((z mod 86400) mod 3600 / 60 = z mod 3600 / 60)%Z)
      by (Z.to_euclidean_division_equations; lia).
    assert (E3 : ((z mod 86400) mod 60 = z mod 60)%Z)
      by (Z.to_euclidean_division_equations; lia).
    rewrite E1, E2, E3.
    apply render_uptime_no_days; Z.to_euclidean_division_equations; lia.
  - unfold format_uptime. rewrite Hdays, Hhours, Hminutes, Hsecs.
    assert (Hh : (0 <= z mod 86400 / 3600)%Z)
      by (Z.to_euclidean_division_equations; lia).
    assert (Hm : (0 <= z mod 3600 / 60)%Z)
      by (Z.to_euclidean_division_equations; lia).
    assert (Hs : (0 <= z mod 60)%Z) by (Z.to_euclidean_division_equations; lia).
    unfold render_uptime. destruct (Z.gtb_spec (z / 86400) 0); [lia|].
    rewrite !str_int_numeral by lia.
    destruct (z mod 86400 / 3600 >? 0)%Z;
      [exists HMS; split; [done|]; by eexists _, _, _|].
    destruct (z mod 3600 / 60 >? 0)%Z; [exists MS; split; [done|]; by eexists _, _|].
    exists SecondsOnly. split; [done|]. by eexists.
Qed.

Lemma negative_duration_wraps_witness :
  (uptime_days (inject_Z (-1)) < 0)%Z
  /\ format_uptime (inject_Z (-1)) = format_uptime (py_mod (inject_Z (-1)) 86400)
  /\ exists pat, pat <> DHMS /\ matches pat (format_uptime (inject_Z (-1))).
Proof. apply (negative_duration_wraps (-1)). lia. Defined.

(** ** More on the chaos toggle *)

Lemma clamp_keeps_threshold p d :
  (0 <= d < 1)%Q ->
  float_lt (Finite d) (clamp p (Finite 0) (Finite 1)) = float_lt (Finite d) p.
Proof.
  intros [Hd0 Hd1]. unfold clamp.
  destruct p as [q| | |]; try reflexivity; simpl.
  - destruct (Qltb q 0) eqn:E0.
    + apply Qltb_lt in E0. simpl.
      transitivity false; [|symmetry]; apply Qltb_ge; lra.
    + destruct (Qltb 1 q) eqn:E1; [|done].
      apply Qltb_lt in E1. simpl.
      transitivity true; [|symmetry]; apply Qltb_lt; lra.
  - apply Qltb_lt. lra.
  - apply Qltb_ge. lra.
Qed.

(** X12. Clamping does not change which draws fail: after a degraded
    write with any float [p], infinities and NaN included, a health
    check with draw [d] in [0, 1) answers 503 exactly when [d < p] as
    floats compare, and 200 otherwise. *)
Theorem degraded_failure_threshold p e w e' :
  (0 <= draw e' < 1)%Q ->
  let w1 := fst (serve (PostSimulateCrash (Some "degraded") (Some p)) e w) in
  chaos_triggers (CHAOS_MODE w1) (draw e') = float_lt (Finite (draw e')) p
  /\ exists r,
       snd (serve GetHealth e' w1) = Return r
       /\ status_code r = (if float_lt (Finite (draw e')) p then 503 else 200)%Z.
Proof.
  intros Hd w1.
  assert (Ht : chaos_triggers (CHAOS_MODE w1) (draw e') = float_lt (Finite (draw e')) p).
  { unfold w1. rewrite serve_chaos_mode. simpl. unfold chaos_triggers. simpl.
    by apply clamp_keeps_threshold. }
  split; [done|]. rewrite <- Ht.
  destruct (chaos_triggers (CHAOS_MODE w1) (draw e')) eqn:E.
  - rewrite serve_health_fails by done. by eexists.
  - rewrite serve_health_passes by done. by eexists.
Qed.

Lemma degraded_failure_threshold_witness :
  let e' := {| t_start := 20; t_handler := 21; t_end := 22; draw := 3 # 10 |} in
  let w1 := fst (serve (PostSimulateCrash (Some "degraded") (Some (Finite (1 # 4))))
                   sample_env (initial_world 0)) in
  chaos_triggers (CHAOS_MODE w1) (draw e') = false
  /\ exists r, snd (serve GetHealth e' w1) = Return r /\ status_code r = 200%Z.
Proof.
  apply (degraded_failure_threshold (Finite (1 # 4)) sample_env (initial_world 0)
           {| t_start := 20; t_handler := 21; t_end := 22; draw := 3 # 10 |}).
  simpl. lra.
Defined.

(** X13. A degraded write with a probability that is not above zero
    (zero, negative, minus infinity, NaN) switches the flag on without
    any effect on health: for as long as no request writes the toggle,
    every health check answers 200 and reports [chaos_mode] true. *)
Theorem degraded_at_zero_is_harmless p e w (reqs : list (Call * Env)) :
  float_lt (Finite 0) p = false ->
  Forall (fun ce => writes_chaos (fst ce) = false /\ (0 <= draw (snd ce))%Q) reqs ->
  let w1 := fst (serve (PostSimulateCrash (Some "degraded") (Some p)) e w) in
  forall i e',
    reqs !! i = Some (GetHealth, e') ->
    snd (serve_all reqs w1) !! i
    = Some (Return {| status_code := 200;
                      content := JSON (JObj
                        [("status", JStr "healthy");
                         ("uptime", JNum (Finite (py_round2 (t_handler e' - START_TIME w)%Q)));
                         ("uptime_formatted",
                          JStr (format_uptime (t_handler e' - START_TIME w)%Q));
                         ("chaos_mode", JBool true)]) |}).
Proof.
  intros Hp Hreqs w1 i e' Hi.
  set (stored := clamp p (Finite 0) (Finite 1)).
  assert (Hstored : forall d, (0 <= d)%Q -> float_lt (Finite d) stored = false).
  { intros d Hd. unfold stored, clamp.
    destruct p as [q| | |]; try reflexivity; simpl in *.
    - apply Qltb_ge in Hp.
      destruct (Qltb q 0) eqn:E0; simpl; [apply Qltb_ge; lra|].
      destruct (Qltb 1 q) eqn:E1; simpl; [apply Qltb_lt in E1; lra|].
      apply Qltb_ge. lra.
    - done.
    - apply Qltb_ge. lra. }
  assert (H1 : CHAOS_MODE w1 = {| enabled := true; probability := stored |}
               /\ START_TIME w1 = START_TIME w).
  { unfold w1. by rewrite serve_chaos_mode, serve_start_time. }
  destruct (serve_all_invariant
              (fun w' => CHAOS_MODE w' = {| enabled := true; probability := stored |}
                         /\ START_TIME w' = START_TIME w)
              (fun ce => writes_chaos (fst ce) = false /\ (0 <= draw (snd ce))%Q)
              (fun c e0 w0 Hc Hw =>
                 conj (eq_trans (untouched_chaos_stays c e0 w0 (proj1 Hc)) (proj1 Hw))
                      (eq_trans (serve_start_time c e0 w0) (proj2 Hw)))
              reqs w1 Hreqs H1) as [_ Hat].
  destruct (Hat i GetHealth e' Hi) as [wi [[Hci Hsi] ->]].
  rewrite Forall_lookup in Hreqs. destruct (Hreqs i _ Hi) as [_ Hdraw]. simpl in Hdraw.
  rewrite serve_health_passes.
  - by rewrite Hci, Hsi.
  - unfold chaos_triggers. rewrite Hci. simpl. by apply Hstored.
Qed.

Lemma degraded_at_zero_is_harmless_witness :
  snd (serve_all [(GetRoot, sample_env); (GetHealth, sample_env)]
         (fst (serve (PostSimulateCrash (Some "degraded") (Some (Finite 0)))
                 sample_env (initial_world 0))))
    !! 1%nat
  = Some (Return {| status_code := 200;
                    content := JSON (JObj
                      [("status", JStr "healthy");
                       ("uptime", JNum (Finite (py_round2 (11 - 0))));
                       ("uptime_formatted", JStr (format_uptime (11 - 0)));
                       ("chaos_mode", JBool true)]) |}).
Proof.
  refine (degraded_at_zero_is_harmless (Finite 0) sample_env (initial_world 0)
            [(GetRoot, sample_env); (GetHealth, sample_env)] _ _ 1%nat sample_env _).
  - reflexivity.
  - repeat constructor; simpl; lra.
  - reflexivity.
Defined.



(** X15. Only the degraded and reset modes write the toggle: through
    any sequence of other requests (info, metrics, health checks that
    pass or fail, immediate crashes, unknown modes) both fields stay as
    they were. *)
Theorem toggle_written_by_degraded_and_reset_only (reqs : list (Call * Env)) w :
  Forall (fun ce => writes_chaos (fst ce) = false) reqs ->
  CHAOS_MODE (fst (serve_all reqs w)) = CHAOS_MODE w.
Proof.
  intros Hreqs.
  apply (serve_all_invariant
           (fun w' => CHAOS_MODE w' = CHAOS_MODE w)
           (fun ce => writes_chaos (fst ce) = false)
           (fun c e w0 Hc Hw => eq_trans (untouched_chaos_stays c e w0 Hc) Hw)
           reqs w Hreqs eq_refl).
Qed.

Lemma toggle_written_by_degraded_and_reset_only_witness :
  CHAOS_MODE
    (fst (serve_all [(GetHealth, sample_env);
                     (PostSimulateCrash None None, sample_env);
                     (PostSimulateCrash (Some "bogus") (Some NaN), sample_env);
                     (GetMetrics, sample_env)]
            (set_chaos chaos_on (initial_world 0))))
  = chaos_on.
Proof.
  apply (toggle_written_by_degraded_and_reset_only
           [(GetHealth, sample_env);
            (PostSimulateCrash None None, sample_env);
            (PostSimulateCrash (Some "bogus") (Some NaN), sample_env);
            (GetMetrics, sample_env)]
           (set_chaos chaos_on (initial_world 0))).
  repeat constructor.
Defined.

(** X16. As long as no degraded write carries NaN, the stored
    probability stays within [0.0, 1.0] through any sequence of
    requests, starting from the state at import. *)
Theorem probability_stays_in_unit_interval (reqs : list (Call * Env)) w :
  in_unit_interval (probability (CHAOS_MODE w)) = true ->
  Forall (fun ce => sends_nan (fst ce) = false) reqs ->
  in_unit_interval (probability (CHAOS_MODE (fst (serve_all reqs w)))) = true.
Proof.
  intros Hw Hreqs.
  apply (serve_all_invariant
           (fun w' => in_unit_interval (probability (CHAOS_MODE w')) = true)
           (fun ce => sends_nan (fst ce) = false)); [|done|done].
  intros c e w0 Hc Hw0. rewrite serve_chaos_mode.
  destruct c as [| | |[mode|] p]; try done. simpl in *.
  destruct (String.eqb mode "degraded").
  - simpl. apply clamp_in_unit_interval. by destruct p as [[]|].
  - by destruct (String.eqb mode "reset").
Qed.

Lemma probability_stays_in_unit_interval_witness :
  in_unit_interval
    (probability
       (CHAOS_MODE
          (fst (serve_all [(PostSimulateCrash (Some "degraded") (Some (Finite 7)), sample_env);
                           (PostSimulateCrash (Some "degraded") (Some NegInf), sample_env);
                           (PostSimulateCrash (Some "degraded") None, sample_env);
                           (GetHealth, sample_env)]
                  (initial_world 0)))))
  = true.
Proof.
  apply (probability_stays_in_unit_interval
           [(PostSimulateCrash (Some "degraded") (Some (Finite 7)), sample_env);
            (PostSimulateCrash (Some "degraded") (Some NegInf), sample_env);
            (PostSimulateCrash (Some "degraded") None, sample_env);
            (GetHealth, sample_env)]
           (initial_world 0)).
  - reflexivity.
  - repeat constructor.
Defined.
